(** * MessageService: the pre-persistence pipeline of
      apps/meteor/server/services/messages/service.ts

    The service class is embedded shallowly.  Asynchronous methods become
    computations in a small monad [M] that threads the service object and
    the outside world, records every call made to a collaborator, and ends
    either fulfilled or rejected.  The hook classes the service imports
    (markdown parser, bad-words filter, ...) are collaborators: they enter
    as a record of operations on the world. *)

From Stdlib Require Import ZArith List Bool Ascii String Lia.
From stdpp Require Import gmap strings list.

Local Open Scope string_scope.
Local Open Scope list_scope.
Local Open Scope Z_scope.

(** ** JavaScript values as the service sees them *)

Module JS.

(** Setting values and optional strings.  Numbers are the integral ones
    (millisecond counts, limits); NaN and fractions are outside the model. *)
Inductive value :=
| undefined
| boolean (b : bool)
| number (n : Z)
| str (s : string).

(** [!!v] *)
Definition truthy (v : value) : bool :=
  match v with
  | undefined => false
  | boolean b => b
  | number n => negb (Z.eqb n 0)
  | str s => negb (String.eqb s EmptyString)
  end.

(** [String(v)] for the values an environment variable can hold. *)
Definition String_ (v : option string) : string :=
  match v with
  | None => "undefined"
  | Some s => s
  end.

Definition lower_ascii (c : ascii) : ascii :=
  let n := nat_of_ascii c in
  if (Nat.leb 65 n && Nat.leb n 90)%bool then ascii_of_nat (n + 32) else c.

(** [s.toLowerCase()].  Only A-Z are mapped; no character outside ASCII
    lowercases to a letter of 'yes' or 'true', so membership in
    ['yes', 'true'] is decided as in JavaScript. *)
Fixpoint toLowerCase (s : string) : string :=
  match s with
  | EmptyString => EmptyString
  | String c r => String (lower_ascii c) (toLowerCase r)
  end.

(** [xs.includes(x)] on an array of strings. *)
Definition includes (xs : list string) (x : string) : bool :=
  existsb (String.eqb x) xs.

Definition is_white (c : ascii) : bool :=
  let n := nat_of_ascii c in
  (Nat.eqb n 32 || (Nat.leb 9 n && Nat.leb n 13))%bool.

(** A string is the sequence of the bytes of its UTF-8 encoding.  Beyond
    ASCII, the white space and line terminators of ECMAScript are U+00A0
    (bytes C2 A0) and, in three bytes, U+1680 (E1 9A 80), U+2000 to U+200A,
    U+2028, U+2029 and U+202F (E2 80 80..8A, A8, A9, AF), U+205F (E2 81 9F),
    U+3000 (E3 80 80) and U+FEFF (EF BB BF). *)
Definition is_white2 (a b : ascii) : bool :=
  (Nat.eqb (nat_of_ascii a) 194 && Nat.eqb (nat_of_ascii b) 160)%bool.

Definition is_white3 (a b c : ascii) : bool :=
  let x := nat_of_ascii a in
  let y := nat_of_ascii b in
  let z := nat_of_ascii c in
  ((Nat.eqb x 225 && Nat.eqb y 154 && Nat.eqb z 128)
   || (Nat.eqb x 226 && Nat.eqb y 128
       && ((Nat.leb 128 z && Nat.leb z 138)
           || Nat.eqb z 168 || Nat.eqb z 169 || Nat.eqb z 175))
   || (Nat.eqb x 226 && Nat.eqb y 129 && Nat.eqb z 159)
   || (Nat.eqb x 227 && Nat.eqb y 128 && Nat.eqb z 128)
   || (Nat.eqb x 239 && Nat.eqb y 187 && Nat.eqb z 191))%bool.

(** Drops from the front every character that [w1] (one byte), [w2] (two
    bytes) or [w3] (three bytes) recognises. *)
Fixpoint strip (w1 : ascii -> bool) (w2 : ascii -> ascii -> bool)
    (w3 : ascii -> ascii -> ascii -> bool) (l : list ascii) : list ascii :=
  match l with
  | [] => []
  | a :: r =>
      if w1 a then strip w1 w2 w3 r
      else
        match r with
        | b :: r2 =>
            if w2 a b then strip w1 w2 w3 r2
            else
              match r2 with
              | c :: r3 => if w3 a b c then strip w1 w2 w3 r3 else l
              | [] => l
              end
        | [] => l
        end
  end.

(** [s.trimStart()] and [s.trimEnd()] on the bytes; at the end the bytes of
    a character are met last byte first. *)
Definition trimStart (l : list ascii) : list ascii :=
  strip is_white is_white2 is_white3 l.

Definition trimEnd (l : list ascii) : list ascii :=
  rev (strip is_white (fun b a => is_white2 a b) (fun c b a => is_white3 a b c)
         (rev l)).

(** [s.trim()] *)
Definition trim (s : string) : string :=
  string_of_list_ascii (trimEnd (trimStart (list_ascii_of_string s))).

Fixpoint split_go (sep : ascii) (cur : string) (s : string) : list string :=
  match s with
  | EmptyString => [String.rev cur]
  | String c r =>
      if Ascii.eqb c sep then String.rev cur :: split_go sep EmptyString r
      else split_go sep (String c cur) r
  end.

(** [s.split(sep)] for a one-character separator. *)
Definition split (sep : ascii) (s : string) : list string :=
  split_go sep EmptyString s.

End JS.

(** ** Data model *)

(** [Pick<IUser, '_id' | 'username' | 'name' | 'language'>] *)
Record IUser := {
  u_id : string;
  username : option string;
  name : option string;
  language : option string;
}.

Record IRoom := {
  r_id : string;
  prid : option string;
}.

Inductive MessageAttachment :=
| SpotifyAttachment (reference : string)
| QuoteAttachment (author_name text author_icon message_link : string).

(** [IMessage].  [ts] and [editedAt] are Dates, held by their time value in
    milliseconds. *)
Record IMessage := {
  m_id : string;
  rid : string;
  msg : string;
  md : option string;
  u : IUser;
  ts : option Z;
  editedAt : option Z;
  attachments : list MessageAttachment;
}.

Inductive Error :=
| JsError (message : string)
| MeteorError (error reason : string).

Inductive Outcome (A : Type) :=
| Fulfilled (a : A)
| Rejected (e : Error).
Arguments Fulfilled {A} a.
Arguments Rejected {A} e.

(** The object literal built by [getMarkdownConfig]. *)
Record KatexConfig := {
  dollarSyntax : JS.value;
  parenthesisSyntax : JS.value;
}.

Record MarkdownConfig := {
  colors : JS.value;
  emoticons : bool;
  customDomains : list string;
  katex : option KatexConfig;
}.

(** The [config] argument of [createAttachmentForMessageURLs]. *)
Record JumpToMessageConfig := {
  chainLimit : JS.value;
  siteUrl : JS.value;
  useRealName : JS.value;
}.

(** [InsertOneResult] *)
Record InsertOneResult := { insertedId : string }.

(** Modelled from the spec: the class BeforeSaveBadWords
    (./hooks/BeforeSaveBadWords) is not among the sources.  Its state is the
    current word list and whitelist, or disabled. *)
Inductive BeforeSaveBadWords :=
| BadWordsDisabled
| BadWordsConfigured (badWordsList whiteList : JS.value).

(** [new BeforeSaveMarkdownParser(enabled)] *)
Record BeforeSaveMarkdownParser := { enabled : bool }.

(** The fields of the service object that its methods read or assign. *)
Record MessageService := {
  markdownParser : BeforeSaveMarkdownParser;
  badWords : BeforeSaveBadWords;
}.

(** ** The world of a run *)

Section Service.

(** What the collaborators keep (collections, permissions, licence
    counters). *)
Context {Store : Type}.

Record World := {
  settings : gmap string JS.value;
  clock : Z;
  store : Store;
}.

(** Calls that leave the service, with their arguments. *)
Inductive Call :=
| CallSettingsGet (key : string)
| CallParseMarkdown (parser : BeforeSaveMarkdownParser) (message : IMessage)
    (config : MarkdownConfig)
| CallFilterBadWords (filter : BeforeSaveBadWords) (message : IMessage)
| CallConvertSpotifyLinks (message : IMessage)
| CallCreateAttachmentForMessageURLs (message : IMessage) (user : IUser)
    (config : JumpToMessageConfig)
| CallIsWithinLimits (message : IMessage) (room : IRoom)
| CallPreventMention (message : IMessage) (user : IUser)
    (mention permission : string)
| CallCreateWithTypeRoomIdMessageUserAndUnread (type rid message : string)
    (user : IUser) (unread : JS.value) (extraData : option IMessage)
| CallBroadcastMessageSentEvent (id : string).

(** An awaited collaborator: it settles, and the world it leaves behind
    includes whatever happened while the caller was suspended. *)
Definition Async (A : Type) : Type := World -> Outcome A * World.

(** The imported functions and hook methods the service calls. *)
Record Collaborators := {
  isEditedMessage : IMessage -> bool;
  parseMarkdown : BeforeSaveMarkdownParser -> IMessage -> MarkdownConfig -> Async IMessage;
  filterBadWords : BeforeSaveBadWords -> IMessage -> Async IMessage;
  convertSpotifyLinks : IMessage -> Async IMessage;
  createAttachmentForMessageURLs :
    IMessage -> IUser -> JumpToMessageConfig -> Async IMessage;
  isWithinLimits : IMessage -> IRoom -> Async unit;
  preventMention : IMessage -> IUser -> string -> string -> Async unit;
  createWithTypeRoomIdMessageUserAndUnread :
    string -> string -> string -> IUser -> JS.value -> option IMessage ->
    Async InsertOneResult;
  utils_getUserAvatarURL : string -> World -> JS.value;
  findVisibleByIds : list string -> World -> list IMessage;
  findByIds : list string -> World -> list IRoom;
  Authorization_canAccessRoom : IRoom -> IUser -> World -> bool;
}.

(** *** The monad of service methods *)

Record State := {
  this : MessageService;
  world : World;
}.

Definition M (A : Type) : Type := State -> Outcome A * State * list Call.

Definition ret {A} (a : A) : M A := fun s => (Fulfilled a, s, []).

Definition bind {A B} (c : M A) (k : A -> M B) : M B :=
  fun s =>
    match c s with
    | (Fulfilled a, s1, t1) =>
        match k a s1 with
        | (r, s2, t2) => (r, s2, t1 ++ t2)
        end
    | (Rejected e, s1, t1) => (Rejected e, s1, t1)
    end.

(** [throw e] *)
Definition throw {A} (e : Error) : M A := fun s => (Rejected e, s, []).

(** [await f(...)]: the call is recorded, then the collaborator settles.
    The service object is the same before and after: a run is taken as one
    during which the settings watcher delivers nothing; what a notification
    does is a step of its own, [configureBadWords_callback]. *)
Definition await {A} (c : Call) (f : Async A) : M A :=
  fun s =>
    match f (world s) with
    | (r, w) => (r, {| this := this s; world := w |}, [c])
    end.

(** [f(...)] without await inside [Promise.all([...])]: the call is made
    and recorded, and the settlement of the promise kept as a value.  The
    collaborators are taken to act on the world one after the other in the
    order they are started; in which order the promises settle is told to
    [Promise_all] separately.  How far the other checks have got when
    [Promise.all] rejects is not modelled: of a run through step 6 only the
    calls and the outcome are stated below, not the world it leaves. *)
Definition start {A} (c : Call) (f : Async A) : M (Outcome A) :=
  fun s =>
    match f (world s) with
    | (r, w) => (Fulfilled r, {| this := this s; world := w |}, [c])
    end.

(** [settings.get(key)] *)
Definition settings_get (key : string) : M JS.value :=
  fun s =>
    (Fulfilled (default JS.undefined (settings (world s) !! key)), s,
     [CallSettingsGet key]).

(** [Date.now()] *)
Definition Date_now : M Z := fun s => (Fulfilled (clock (world s)), s, []).

Definition get_this : M MessageService := fun s => (Fulfilled (this s), s, []).

Definition set_this (svc : MessageService) : M unit :=
  fun s => (Fulfilled tt, {| this := svc; world := world s |}, []).

End Service.

Arguments World Store : clear implicits.
Arguments Collaborators Store : clear implicits.
Arguments State Store : clear implicits.
Arguments M Store A : clear implicits.
Arguments Async Store A : clear implicits.

Declare Scope service_scope.
Delimit Scope service_scope with service.
Notation "x <- c ;; k" := (bind c (fun x => k))
  (at level 100, c at next level, right associativity) : service_scope.
Notation "c ;;; k" := (bind c (fun _ => k))
  (at level 100, right associativity) : service_scope.

(** ** The service *)

Section MessageService.

Context {Store : Type} (C : Collaborators Store).

Local Open Scope service_scope.

(** [f(...)] whose promise is dropped with [void]: the call is made, no
    settlement is waited for. *)
Definition void (c : Call) : M Store unit :=
  fun s => (Fulfilled tt, s, [c]).

(** Line 21: the value the constant [disableMarkdownParser] gets when the
    module is loaded with environment [process_env]. *)
Definition disableMarkdownParser (process_env : gmap string string) : bool :=
  JS.includes ["yes"; "true"]
    (JS.toLowerCase (JS.String_ (process_env !! "DISABLE_MESSAGE_PARSER"))).

(** [created()], for the fields the methods below use.  [disabled] is the
    module's constant [disableMarkdownParser]; what
    [new BeforeSaveBadWords()] starts as is the constructor's affair and
    comes as [fresh]. *)
Definition created (disabled : bool) (fresh : BeforeSaveBadWords) : MessageService :=
  {| markdownParser := {| enabled := negb disabled |};
     badWords := fresh |}.

(** The [getUserAvatarURL] handed to BeforeSaveJumpToMessage (lines 52-54):
    [(user && getUserAvatarURL(user)) || ''] *)
Definition getUserAvatarURL (user : JS.value) (w : World Store) : JS.value :=
  let conj :=
    if JS.truthy user then
      match user with
      | JS.str username => utils_getUserAvatarURL C username w
      | _ => JS.undefined
      end
    else user in
  if JS.truthy conj then conj else JS.str EmptyString.

(** The two methods of BeforeSaveBadWords the watcher calls. *)
Definition disable (_ : BeforeSaveBadWords) : BeforeSaveBadWords :=
  BadWordsDisabled.

Definition configure (badWordsList whiteList : JS.value)
    (_ : BeforeSaveBadWords) : BeforeSaveBadWords :=
  BadWordsConfigured badWordsList whiteList.

Definition watched : list string :=
  ["Message_AllowBadWordsFilter"; "Message_BadWordsFilterList";
   "Message_BadWordsWhitelist"].

(** The callback given to [settings.watchMultiple] (lines 66-72); the
    array is destructured as [[enabled, badWordsList, whiteList]]. *)
Definition configureBadWords_callback (values : list JS.value) : M Store unit :=
  let enabled := nth 0 values JS.undefined in
  let badWordsList := nth 1 values JS.undefined in
  let whiteList := nth 2 values JS.undefined in
  svc <- get_this ;;
  if negb (JS.truthy enabled) then
    set_this {| markdownParser := markdownParser svc;
                badWords := disable (badWords svc) |}
  else
    set_this {| markdownParser := markdownParser svc;
                badWords := configure badWordsList whiteList (badWords svc) |}.

(** Modelled from the spec: [settings.watchMultiple]
    (app/settings/server) is not among the sources.  A notification
    delivers the current values of all watched keys, in the order of the
    keys, to the callback. *)
Definition watchMultiple_notify (keys : list string)
    (callback : list JS.value -> M Store unit) : M Store unit :=
  fun s =>
    callback (map (fun k => default JS.undefined (settings (world s) !! k)) keys) s.

Definition configureBadWords_notify : M Store unit :=
  watchMultiple_notify watched configureBadWords_callback.

(** Lines 96-120. *)
Definition saveSystemMessage (type rid message : string) (owner : IUser)
    (extraData : option IMessage) : M Store string :=
  let userId := u_id owner in
  let username := username owner in
  let name := name owner in
  if negb (JS.truthy (from_option JS.str JS.undefined username)) then
    throw (JsError "The username cannot be empty.")
  else
    unread <- settings_get "Message_Read_Receipt_Enabled" ;;
    let user :=
      {| u_id := userId; username := username; name := name; language := None |} in
    result <- await
      (CallCreateWithTypeRoomIdMessageUserAndUnread type rid message user unread extraData)
      (createWithTypeRoomIdMessageUserAndUnread C type rid message user unread extraData) ;;
    void (CallBroadcastMessageSentEvent (insertedId result)) ;;;
    ret (insertedId result).

(** Lines 159-178. *)
Definition getMarkdownConfig : M Store MarkdownConfig :=
  autoLink <- settings_get "Message_CustomDomain_AutoLink" ;;
  customDomains <-
    (if JS.truthy autoLink then
       autoLink <- settings_get "Message_CustomDomain_AutoLink" ;;
       match autoLink with
       | JS.str s => ret (map JS.trim (JS.split "," s))
       | _ => throw (JsError "split is not a function")
       end
     else ret []) ;;
  colors <- settings_get "HexColorPreview_Enabled" ;;
  katexEnabled <- settings_get "Katex_Enabled" ;;
  katex <-
    (if JS.truthy katexEnabled then
       dollarSyntax <- settings_get "Katex_Dollar_Syntax" ;;
       parenthesisSyntax <- settings_get "Katex_Parenthesis_Syntax" ;;
       ret (Some {| dollarSyntax := dollarSyntax;
                    parenthesisSyntax := parenthesisSyntax |})
     else ret None) ;;
  ret {| colors := colors; emoticons := true;
         customDomains := customDomains; katex := katex |}.

(** Lines 180-182. *)
Definition isEditedOrOld (message : IMessage) : M Store bool :=
  if isEditedMessage C message then ret true
  else
    match ts message with
    | None => ret true
    | Some t =>
        now <- Date_now ;;
        ret (60000 <? Z.abs (now - t))
    end.

Fixpoint first_rejection {A} (ps : list (Outcome A)) : option Error :=
  match ps with
  | [] => None
  | Fulfilled _ :: ps' => first_rejection ps'
  | Rejected e :: _ => Some e
  end.

Definition fulfilled_value {A} (p : Outcome A) : option A :=
  match p with
  | Fulfilled a => Some a
  | Rejected _ => None
  end.

(** [await Promise.all(ps)].  [settled] lists the promises (by index) in
    the order the event loop settles them; promises it leaves out settle
    afterwards in array order.  The first rejection to settle is the
    rejection of the whole; without one, all values are returned. *)
Definition Promise_all {A} (settled : list nat) (ps : list (Outcome A)) :
    M Store (list A) :=
  match first_rejection (omap (fun i => ps !! i) settled ++ ps) with
  | Some e => throw e
  | None => ret (omap fulfilled_value ps)
  end.

(** Lines 122-157. *)
Definition beforeSave (settled : list nat) (message : IMessage) (_room : IRoom)
    (user : IUser) : M Store IMessage :=
  svc <- get_this ;;
  config <- getMarkdownConfig ;;
  message <- await (CallParseMarkdown (markdownParser svc) message config)
               (parseMarkdown C (markdownParser svc) message config) ;;
  svc <- get_this ;;
  message <- await (CallFilterBadWords (badWords svc) message)
               (filterBadWords C (badWords svc) message) ;;
  message <- await (CallConvertSpotifyLinks message)
               (convertSpotifyLinks C message) ;;
  chainLimit <- settings_get "Message_QuoteChainLimit" ;;
  siteUrl <- settings_get "Site_Url" ;;
  useRealName <- settings_get "UI_Use_Real_Name" ;;
  let config := {| chainLimit := chainLimit; siteUrl := siteUrl;
                   useRealName := useRealName |} in
  message <- await (CallCreateAttachmentForMessageURLs message user config)
               (createAttachmentForMessageURLs C message user config) ;;
  editedOrOld <- isEditedOrOld message ;;
  (if negb editedOrOld then
     p1 <- start (CallIsWithinLimits message _room)
             (isWithinLimits C message _room) ;;
     p2 <- start (CallPreventMention message user "all" "mention-all")
             (preventMention C message user "all" "mention-all") ;;
     p3 <- start (CallPreventMention message user "here" "mention-here")
             (preventMention C message user "here" "mention-here") ;;
     Promise_all settled [p1; p2; p3] ;;;
     ret tt
   else ret tt) ;;;
  ret message.

End MessageService.

(** ** Hook classes that are not among the sources *)

Definition set_msg (text : string) (m : IMessage) : IMessage :=
  {| m_id := m_id m; rid := rid m; msg := text; md := md m; u := u m;
     ts := ts m; editedAt := editedAt m; attachments := attachments m |}.

Definition add_attachments (new : list MessageAttachment) (m : IMessage) : IMessage :=
  {| m_id := m_id m; rid := rid m; msg := msg m; md := md m; u := u m;
     ts := ts m; editedAt := editedAt m; attachments := attachments m ++ new |}.

Module BadWords.
Section BadWords.

Context {Store : Type}.

(** The masking policy: banned list, whitelist, text. *)
Variable clean : JS.value -> JS.value -> string -> string.

(** Modelled from the spec: [BeforeSaveBadWords.filterBadWords] is not
    among the sources.  Disabled, the stage is a pass-through (text
    unchanged); configured, it masks the text by the current word list
    and whitelist; it never raises. *)
Definition filterBadWords (filter : BeforeSaveBadWords) (message : IMessage) :
    Async Store IMessage :=
  fun w =>
    match filter with
    | BadWordsDisabled => (Fulfilled message, w)
    | BadWordsConfigured badWordsList whiteList =>
        (Fulfilled (set_msg (clean badWordsList whiteList (msg message)) message), w)
    end.

End BadWords.
End BadWords.

Module QuoteLink.
Section QuoteLink.

Context {Store : Type}.

(** A permalink found in a text: the link and the room and message it
    points at. *)
Record Permalink := {
  link_url : string;
  link_rid : string;
  link_mid : string;
}.

(** The object [created()] passes to [new BeforeSaveJumpToMessage(...)]
    (lines 42-55). *)
Record Dependencies := {
  getMessages : list string -> World Store -> list IMessage;
  getRooms : list string -> World Store -> list IRoom;
  canAccessRoom : IRoom -> IUser -> World Store -> bool;
  getUserAvatarURL : JS.value -> World Store -> JS.value;
}.

Variable deps : Dependencies.

(** The matcher of permalinks of this deployment: site base URL, text;
    the links come in the order they appear in the text. *)
Variable permalinks : string -> string -> list Permalink.

(** Modelled from the spec: [BeforeSaveJumpToMessage] is not among the
    sources.  Steps 1-5 of the QuoteLink stage for one match: resolve the
    message and the room, skip when either is missing or the room is not
    accessible to the acting user, resolve the avatar, build the quoted
    attachment. *)
Definition quote (user : IUser) (w : World Store) (l : Permalink) :
    option MessageAttachment :=
  match head (getMessages deps [link_mid l] w), head (getRooms deps [link_rid l] w) with
  | Some quoted, Some room =>
      if canAccessRoom deps room user w then
        let author := username (u quoted) in
        let avatar :=
          match getUserAvatarURL deps (from_option JS.str JS.undefined author) w with
          | JS.str url => url
          | _ => EmptyString
          end in
        Some (QuoteAttachment (default EmptyString author) (msg quoted) avatar (link_url l))
      else None
  | _, _ => None
  end.

(** Modelled from the spec: the matches are taken left to right; once
    [limit] attachments have been appended, further matches are ignored. *)
Fixpoint quotes (limit : nat) (user : IUser) (w : World Store)
    (links : list Permalink) : list MessageAttachment :=
  match links with
  | [] => []
  | l :: rest =>
      match limit with
      | O => []
      | S limit' =>
          match quote user w l with
          | Some a => a :: quotes limit' user w rest
          | None => quotes limit user w rest
          end
      end
  end.

(** Modelled from the spec: the stage as a whole, for chain limit [limit]
    and site base URL [site].  It appends and never raises. *)
Definition createAttachmentForMessageURLs (limit : nat) (site : string)
    (message : IMessage) (user : IUser) : Async Store IMessage :=
  fun w =>
    (Fulfilled
       (add_attachments (quotes limit user w (permalinks site (msg message))) message),
     w).

(** A valid, accessible quotable permalink. *)
Definition quotable (user : IUser) (w : World Store) (l : Permalink) : bool :=
  match quote user w l with
  | Some _ => true
  | None => false
  end.

End QuoteLink.
End QuoteLink.


(** ** Reading a run *)

Section Runs.

Context {Store : Type}.

Definition outcome_of {A} (r : Outcome A * State Store * list Call) : Outcome A :=
  r.1.1.

Definition state_of {A} (r : Outcome A * State Store * list Call) : State Store :=
  r.1.2.

Definition calls_of {A} (r : Outcome A * State Store * list Call) : list Call :=
  r.2.

End Runs.

(** The stages of the pipeline a call belongs to. *)
Inductive Stage :=
| MarkdownStage
| BadWordsStage
| LinkEnrichmentStage
| QuoteLinkStage
| ConstraintCheckStage
| MentionGuardStage (mention : string).

Definition stage_of (c : Call) : option Stage :=
  match c with
  | CallParseMarkdown _ _ _ => Some MarkdownStage
  | CallFilterBadWords _ _ => Some BadWordsStage
  | CallConvertSpotifyLinks _ => Some LinkEnrichmentStage
  | CallCreateAttachmentForMessageURLs _ _ _ => Some QuoteLinkStage
  | CallIsWithinLimits _ _ => Some ConstraintCheckStage
  | CallPreventMention _ _ mention _ => Some (MentionGuardStage mention)
  | _ => None
  end.

(** The calls of step 6. *)
Definition is_validation (c : Call) : bool :=
  match c with
  | CallIsWithinLimits _ _ | CallPreventMention _ _ _ _ => true
  | _ => false
  end.

Definition is_settings_get (c : Call) : bool :=
  match c with
  | CallSettingsGet _ => true
  | _ => false
  end.

(** The calls that write or announce a message. *)
Definition is_write (c : Call) : bool :=
  match c with
  | CallCreateWithTypeRoomIdMessageUserAndUnread _ _ _ _ _ _
  | CallBroadcastMessageSentEvent _ => true
  | _ => false
  end.

Definition pipeline_order : list Stage :=
  [MarkdownStage; BadWordsStage; LinkEnrichmentStage; QuoteLinkStage;
   ConstraintCheckStage; MentionGuardStage "all"; MentionGuardStage "here"].

Section Pipeline.

Context {Store : Type} (C : Collaborators Store).

Local Open Scope service_scope.

(** Lines 134-146 of [beforeSave] on their own: stages 1 to 4. *)
Definition transformStages (message : IMessage) (user : IUser) :
    M Store IMessage :=
  svc <- get_this ;;
  config <- getMarkdownConfig ;;
  message <- await (CallParseMarkdown (markdownParser svc) message config)
               (parseMarkdown C (markdownParser svc) message config) ;;
  svc <- get_this ;;
  message <- await (CallFilterBadWords (badWords svc) message)
               (filterBadWords C (badWords svc) message) ;;
  message <- await (CallConvertSpotifyLinks message)
               (convertSpotifyLinks C message) ;;
  chainLimit <- settings_get "Message_QuoteChainLimit" ;;
  siteUrl <- settings_get "Site_Url" ;;
  useRealName <- settings_get "UI_Use_Real_Name" ;;
  let config := {| chainLimit := chainLimit; siteUrl := siteUrl;
                   useRealName := useRealName |} in
  message <- await (CallCreateAttachmentForMessageURLs message user config)
               (createAttachmentForMessageURLs C message user config) ;;
  ret message.

(** Lines 148-156 of [beforeSave] on their own: the freshness check, step 6 and the
    return. *)
Definition validateAndReturn (settled : list nat) (message : IMessage)
    (_room : IRoom) (user : IUser) : M Store IMessage :=
  editedOrOld <- isEditedOrOld C message ;;
  (if negb editedOrOld then
     p1 <- start (CallIsWithinLimits message _room)
             (isWithinLimits C message _room) ;;
     p2 <- start (CallPreventMention message user "all" "mention-all")
             (preventMention C message user "all" "mention-all") ;;
     p3 <- start (CallPreventMention message user "here" "mention-here")
             (preventMention C message user "here" "mention-here") ;;
     Promise_all settled [p1; p2; p3] ;;;
     ret tt
   else ret tt) ;;;
  ret message.

(** The three calls of step 6 on message [m]. *)
Definition validationCalls (m : IMessage) (room : IRoom) (user : IUser) :
    list Call :=
  [CallIsWithinLimits m room;
   CallPreventMention m user "all" "mention-all";
   CallPreventMention m user "here" "mention-here"].

(** How the three checks of step 6 settle when started on [m] in world [w]. *)
Definition checks (m : IMessage) (room : IRoom) (user : IUser)
    (w : World Store) : list (Outcome unit) :=
  let '(p1, w1) := isWithinLimits C m room w in
  let '(p2, w2) := preventMention C m user "all" "mention-all" w1 in
  let '(p3, _) := preventMention C m user "here" "mention-here" w2 in
  [p1; p2; p3].

(** The world the three checks leave behind. *)
Definition world_after_checks (m : IMessage) (room : IRoom) (user : IUser)
    (w : World Store) : World Store :=
  let '(_, w1) := isWithinLimits C m room w in
  let '(_, w2) := preventMention C m user "all" "mention-all" w1 in
  let '(_, w3) := preventMention C m user "here" "mention-here" w2 in
  w3.

(** Freshness as the code decides it: not edited, a creation timestamp, and
    at most 60000 ms between the timestamp and [now], either way. *)
Definition fresh_and_unedited (now : Z) (m : IMessage) : bool :=
  negb (isEditedMessage C m) &&
  match ts m with
  | Some t => Z.abs (now - t) <=? 60000
  | None => false
  end.

(** Freshness in the words of the spec (step 5): no edited marker AND (no
    creation timestamp OR the timestamp within the 60-second window). *)
Definition isFreshAndUnedited_spec (now : Z) (m : IMessage) : bool :=
  negb (isEditedMessage C m) &&
  match ts m with
  | Some t => Z.abs (now - t) <=? 60000
  | None => true
  end.

(** The configuration objects, as functions of one state of the settings. *)
Definition setting (σ : gmap string JS.value) (key : string) : JS.value :=
  default JS.undefined (σ !! key).

Definition jumpToMessageConfig_of (σ : gmap string JS.value) : JumpToMessageConfig :=
  {| chainLimit := setting σ "Message_QuoteChainLimit";
     siteUrl := setting σ "Site_Url";
     useRealName := setting σ "UI_Use_Real_Name" |}.

Definition markdownConfig_of (σ : gmap string JS.value) : option MarkdownConfig :=
  let autoLink := setting σ "Message_CustomDomain_AutoLink" in
  let domains :=
    if JS.truthy autoLink then
      match autoLink with
      | JS.str s => Some (map JS.trim (JS.split "," s))
      | _ => None
      end
    else Some [] in
  match domains with
  | Some ds =>
      Some {| colors := setting σ "HexColorPreview_Enabled";
              emoticons := true;
              customDomains := ds;
              katex :=
                if JS.truthy (setting σ "Katex_Enabled") then
                  Some {| dollarSyntax := setting σ "Katex_Dollar_Syntax";
                          parenthesisSyntax := setting σ "Katex_Parenthesis_Syntax" |}
                else None |}
  | None => None
  end.

(** The dependencies [created()] hands to BeforeSaveJumpToMessage
    (lines 42-55). *)
Definition jumpToMessageDependencies : QuoteLink.Dependencies :=
  {| QuoteLink.getMessages := findVisibleByIds C;
     QuoteLink.getRooms := findByIds C;
     QuoteLink.canAccessRoom := Authorization_canAccessRoom C;
     QuoteLink.getUserAvatarURL := getUserAvatarURL C |}.

End Pipeline.

(** ** A small deployment to run the service on *)

Module Demo.

(** What the collaborators keep: stored messages, rooms, and the
    permissions the acting user holds. *)
Record Store := {
  messages : list IMessage;
  rooms : list IRoom;
  permissions : list string;
}.

Definition contains (needle text : string) : bool :=
  match String.index 0 needle text with
  | Some _ => true
  | None => false
  end.

Definition isEditedMessage (m : IMessage) : bool :=
  match editedAt m with
  | Some _ => true
  | None => false
  end.

Definition parseMarkdown (p : BeforeSaveMarkdownParser) (m : IMessage)
    (_ : MarkdownConfig) : Async Store IMessage :=
  fun w =>
    (Fulfilled
       (if enabled p then
          {| m_id := m_id m; rid := rid m; msg := msg m; md := Some (msg m);
             u := u m; ts := ts m; editedAt := editedAt m;
             attachments := attachments m |}
        else m), w).

(** Masks the whole text when it is the banned word itself. *)
Definition clean (badWordsList whiteList : JS.value) (text : string) : string :=
  match badWordsList with
  | JS.str banned =>
      if String.eqb banned text && negb (String.eqb text (JS.String_
           match whiteList with JS.str s => Some s | _ => None end))
      then "****" else text
  | _ => text
  end.

Definition convertSpotifyLinks (m : IMessage) : Async Store IMessage :=
  fun w => (Fulfilled m, w).

Definition findVisibleByIds (ids : list string) (w : World Store) : list IMessage :=
  filter (fun m => m_id m ∈ ids) (messages (store w)).

Definition findByIds (ids : list string) (w : World Store) : list IRoom :=
  filter (fun r => r_id r ∈ ids) (rooms (store w)).

Definition canAccessRoom (room : IRoom) (_ : IUser) (_ : World Store) : bool :=
  negb (String.eqb (r_id room) "PRIVATE").

Definition utils_getUserAvatarURL (username : string) (_ : World Store) : JS.value :=
  if String.eqb username "ghost" then JS.undefined
  else JS.str ("/avatar/" +:+ username).

(** Words of the text of the form [site/mid]; every message lives in the
    room GENERAL. *)
Definition permalinks (site text : string) : list QuoteLink.Permalink :=
  omap
    (fun word =>
       if String.prefix (site +:+ "/") word then
         Some {| QuoteLink.link_url := word;
                 QuoteLink.link_rid := "GENERAL";
                 QuoteLink.link_mid :=
                   String.substring (String.length site + 1)
                     (String.length word) word |}
       else None)
    (String.words text).

Definition dependencies : QuoteLink.Dependencies :=
  {| QuoteLink.getMessages := findVisibleByIds;
     QuoteLink.getRooms := findByIds;
     QuoteLink.canAccessRoom := canAccessRoom;
     QuoteLink.getUserAvatarURL :=
       fun user w =>
         match user with
         | JS.str n =>
             if JS.truthy (utils_getUserAvatarURL n w)
             then utils_getUserAvatarURL n w else JS.str EmptyString
         | _ => JS.str EmptyString
         end |}.

Definition createAttachmentForMessageURLs (m : IMessage) (user : IUser)
    (config : JumpToMessageConfig) : Async Store IMessage :=
  QuoteLink.createAttachmentForMessageURLs dependencies permalinks
    (match chainLimit config with JS.number n => Z.to_nat n | _ => O end)
    (match siteUrl config with JS.str s => s | _ => EmptyString end)
    m user.

Definition isWithinLimits (_ : IMessage) (_ : IRoom) : Async Store unit :=
  fun w => (Fulfilled tt, w).

Definition preventMention (m : IMessage) (_ : IUser) (mention permission : string) :
    Async Store unit :=
  fun w =>
    if contains ("@" +:+ mention) (msg m)
       && negb (existsb (String.eqb permission) (permissions (store w)))
    then (Rejected (MeteorError "error-action-not-allowed"
                      ("Notify " +:+ mention +:+ " in this room not allowed")), w)
    else (Fulfilled tt, w).

Definition createWithTypeRoomIdMessageUserAndUnread (type rid message : string)
    (user : IUser) (_ : JS.value) (_ : option IMessage) :
    Async Store InsertOneResult :=
  fun w =>
    let id := "sys-" +:+ message in
    (Fulfilled {| insertedId := id |},
     {| settings := settings w; clock := clock w;
        store :=
          {| messages :=
               messages (store w) ++
               [{| m_id := id; rid := rid; msg := message; md := None; u := user;
                   ts := Some (clock w); editedAt := None; attachments := [] |}];
             rooms := rooms (store w);
             permissions := permissions (store w) |} |}).

Definition collaborators : Collaborators Store :=
  @Build_Collaborators Store isEditedMessage parseMarkdown
    (BadWords.filterBadWords clean) convertSpotifyLinks
    createAttachmentForMessageURLs isWithinLimits preventMention
    createWithTypeRoomIdMessageUserAndUnread utils_getUserAvatarURL
    findVisibleByIds findByIds canAccessRoom.

(** The same deployment, except that an administrator saves a new
    [Site_Url] while the run is suspended in the Spotify stage. *)
Definition convertSpotifyLinks_during_reload (m : IMessage) : Async Store IMessage :=
  fun w =>
    (Fulfilled m,
     {| settings := <["Site_Url" := JS.str "https://new.example"]> (settings w);
        clock := clock w; store := store w |}).

Definition collaborators_during_reload : Collaborators Store :=
  @Build_Collaborators Store isEditedMessage parseMarkdown
    (BadWords.filterBadWords clean) convertSpotifyLinks_during_reload
    createAttachmentForMessageURLs isWithinLimits preventMention
    createWithTypeRoomIdMessageUserAndUnread utils_getUserAvatarURL
    findVisibleByIds findByIds canAccessRoom.

Definition alice : IUser :=
  {| u_id := "u1"; username := Some "alice"; name := Some "Alice";
     language := Some "en" |}.

Definition general : IRoom := {| r_id := "GENERAL"; prid := None |}.

Definition message (text : string) (ts : option Z) (editedAt : option Z) : IMessage :=
  {| m_id := "m1"; rid := "GENERAL"; msg := text; md := None; u := alice;
     ts := ts; editedAt := editedAt; attachments := [] |}.

Definition earlier (id text : string) (author : option string) : IMessage :=
  {| m_id := id; rid := "GENERAL"; msg := text; md := None;
     u := {| u_id := "u2"; username := author; name := None; language := None |};
     ts := Some 1000; editedAt := None; attachments := [] |}.

Definition site_settings : gmap string JS.value :=
  {[ "Site_Url" := JS.str "https://chat.example";
     "Message_QuoteChainLimit" := JS.number 1;
     "UI_Use_Real_Name" := JS.boolean false;
     "HexColorPreview_Enabled" := JS.boolean true;
     "Message_AllowBadWordsFilter" := JS.boolean false;
     "Message_BadWordsFilterList" := JS.str "damn" ]}.

Definition world_at (now : Z) : World Store :=
  {| settings := site_settings; clock := now;
     store :=
       {| messages := [earlier "a" "first" (Some "bob");
                       earlier "b" "second" (Some "ghost")];
          rooms := [general];
          permissions := [] |} |}.

(** What [parseMarkdown] above returns for [m] when parsing is enabled. *)
Definition rendered (m : IMessage) : IMessage :=
  {| m_id := m_id m; rid := rid m; msg := msg m; md := Some (msg m);
     u := u m; ts := ts m; editedAt := editedAt m;
     attachments := attachments m |}.

(** Three messages mentioning everyone: one sent a second ago, one
    without a creation timestamp, one edited. *)
Definition recent : IMessage := message "hello @all" (Some 5000) None.

Definition undated : IMessage := message "hello @all" None None.

Definition edited : IMessage := message "hello @all" (Some 5000) (Some 5500).

Definition markdownConfig : MarkdownConfig :=
  {| colors := JS.boolean true; emoticons := true; customDomains := [];
     katex := None |}.

Definition service : MessageService :=
  {| markdownParser := {| enabled := true |}; badWords := BadWordsDisabled |}.

Definition state_at (now : Z) : State Store :=
  {| this := service; world := world_at now |}.

End Demo.

Section Statements.

Context {Store : Type} (C : Collaborators Store).

(** Stages 1 to 4 all fulfil on [m] from state [s]: the configuration and
    the message and world each stage leaves. *)
Definition stages_settle (s : State Store) (m : IMessage) (user : IUser)
    (cfg : MarkdownConfig) (m1 m2 m3 m4 : IMessage) (w1 w2 w3 w4 : World Store) : Prop :=
  markdownConfig_of (settings (world s)) = Some cfg /\
  parseMarkdown C (markdownParser (this s)) m cfg (world s) = (Fulfilled m1, w1) /\
  filterBadWords C (badWords (this s)) m1 w1 = (Fulfilled m2, w2) /\
  convertSpotifyLinks C m2 w2 = (Fulfilled m3, w3) /\
  createAttachmentForMessageURLs C m3 user (jumpToMessageConfig_of (settings w3)) w3
    = (Fulfilled m4, w4).

(** The calls to the four transform stages in such a run. *)
Definition transformCalls (s : State Store) (m : IMessage) (user : IUser)
    (cfg : MarkdownConfig) (m1 m2 m3 : IMessage) (w3 : World Store) : list Call :=
  [CallParseMarkdown (markdownParser (this s)) m cfg;
   CallFilterBadWords (badWords (this s)) m1;
   CallConvertSpotifyLinks m2;
   CallCreateAttachmentForMessageURLs m3 user (jumpToMessageConfig_of (settings w3))].

(** C1 in the words of the spec, for one run: the checks of step 6 are
    called exactly when [isFreshAndUnedited_spec] holds after stage 4. *)
Definition validation_iff_spec_fresh (settled : list nat) (m : IMessage)
    (room : IRoom) (user : IUser) (s : State Store) : Prop :=
  forall m4 s4 t4,
    transformStages C m user s = (Fulfilled m4, s4, t4) ->
    (List.filter is_validation (calls_of (beforeSave C settled m room user s))
       = validationCalls m4 room user <->
     isFreshAndUnedited_spec C (clock (world s4)) m4 = true).

(** C9 in the words of the spec, for the calls of one run started with
    settings [σ0]: the configuration every stage is handed is the one
    dereferenced at the start. *)
Definition single_snapshot (σ0 : gmap string JS.value) (t : list Call) : Prop :=
  forall c, In c t ->
    match c with
    | CallParseMarkdown _ _ cfg => markdownConfig_of σ0 = Some cfg
    | CallCreateAttachmentForMessageURLs _ _ cfg => cfg = jumpToMessageConfig_of σ0
    | _ => True
    end.


(** The message and the world the Spotify stage leaves in the run of
    [beforeSave] on [m] from [s], when the run gets that far. *)
Definition after_spotify (s : State Store) (m : IMessage) :
    option (IMessage * World Store) :=
  match markdownConfig_of (settings (world s)) with
  | Some cfg =>
      match parseMarkdown C (markdownParser (this s)) m cfg (world s) with
      | (Fulfilled m1, w1) =>
          match filterBadWords C (badWords (this s)) m1 w1 with
          | (Fulfilled m2, w2) =>
              match convertSpotifyLinks C m2 w2 with
              | (Fulfilled m3, w3) => Some (m3, w3)
              | (Rejected _, _) => None
              end
          | (Rejected _, _) => None
          end
      | (Rejected _, _) => None
      end
  | None => None
  end.

(** Where the configuration a call of the run on [m] from [s] carries was
    read: for the markdown stage, the settings of [s]; for the QuoteLink
    stage, the settings of the world in which the Spotify stage of this
    very run settled. *)
Definition config_read_in_run (s : State Store) (m : IMessage) (c : Call) : Prop :=
  match c with
  | CallParseMarkdown _ m0 cfg =>
      m0 = m /\ markdownConfig_of (settings (world s)) = Some cfg
  | CallCreateAttachmentForMessageURLs m3 _ cfg =>
      exists w3,
        after_spotify s m = Some (m3, w3) /\
        cfg = jumpToMessageConfig_of (settings w3)
  | _ => True
  end.

(** A computation that leaves the parser of the service object as it
    found it. *)
Definition keeps_markdownParser {A} (c : M Store A) : Prop :=
  forall s, markdownParser (this (state_of (c s))) = markdownParser (this s).

Definition is_stage_call (c : Call) : bool :=
  match stage_of c with
  | Some _ => true
  | None => false
  end.

End Statements.

Module DemoRuns.

(** The settle order in which the promises of step 6 settle in array order. *)
Definition in_order : list nat := [0; 1; 2]%nat.


Definition process_env : gmap string string :=
  {[ "DISABLE_MESSAGE_PARSER" := "TRUE" ]}.

Definition quoting : IMessage :=
  Demo.message "see https://chat.example/a https://chat.example/zz https://chat.example/b"
    (Some 5000) None.

Definition anonymous : IUser :=
  {| u_id := "u3"; username := Some EmptyString; name := None; language := None |}.

(** The world after an administrator saved a new [Site_Url]. *)
Definition world_after_reload : World Demo.Store :=
  {| settings := <["Site_Url" := JS.str "https://new.example"]> Demo.site_settings;
     clock := 6000; store := store (Demo.world_at 6000) |}.

Definition link_b : QuoteLink.Permalink :=
  {| QuoteLink.link_url := "https://chat.example/b";
     QuoteLink.link_rid := "GENERAL";
     QuoteLink.link_mid := "b" |}.

End DemoRuns.

(** ** Further readings of a run *)

Definition is_broadcast (c : Call) : bool :=
  match c with
  | CallBroadcastMessageSentEvent _ => true
  | _ => false
  end.

(** The settings a run may read: those of [getMarkdownConfig] and those of
    the QuoteLink configuration. *)
Definition beforeSave_keys : list string :=
  ["Message_CustomDomain_AutoLink"; "HexColorPreview_Enabled"; "Katex_Enabled";
   "Katex_Dollar_Syntax"; "Katex_Parenthesis_Syntax";
   "Message_QuoteChainLimit"; "Site_Url"; "UI_Use_Real_Name"].

Definition markdown_keys : list string :=
  ["Message_CustomDomain_AutoLink"; "HexColorPreview_Enabled"; "Katex_Enabled";
   "Katex_Dollar_Syntax"; "Katex_Parenthesis_Syntax"].

(** What a call of a run of [beforeSave] on service object [svc] may be: a
    read of one of [beforeSave_keys], a stage called with the parser or the
    filter of [svc], a check; never a write. *)
Definition run_call (svc : MessageService) (c : Call) : Prop :=
  match c with
  | CallSettingsGet key => In key beforeSave_keys
  | CallParseMarkdown parser _ _ => parser = markdownParser svc
  | CallFilterBadWords filter _ => filter = badWords svc
  | CallCreateWithTypeRoomIdMessageUserAndUnread _ _ _ _ _ _ => False
  | CallBroadcastMessageSentEvent _ => False
  | _ => True
  end.

(** The settings reads of [getMarkdownConfig] for settings [σ], in order. *)
Definition markdownConfig_reads (σ : gmap string JS.value) : list Call :=
  let autoLink := default JS.undefined (σ !! "Message_CustomDomain_AutoLink") in
  CallSettingsGet "Message_CustomDomain_AutoLink" ::
  (if JS.truthy autoLink then [CallSettingsGet "Message_CustomDomain_AutoLink"] else []) ++
  (if JS.truthy autoLink && negb (match autoLink with JS.str _ => true | _ => false end)
   then []
   else
     [CallSettingsGet "HexColorPreview_Enabled"; CallSettingsGet "Katex_Enabled"] ++
     (if JS.truthy (default JS.undefined (σ !! "Katex_Enabled"))
      then [CallSettingsGet "Katex_Dollar_Syntax";
            CallSettingsGet "Katex_Parenthesis_Syntax"]
      else [])).

Fixpoint count_char (c : ascii) (s : string) : nat :=
  match s with
  | EmptyString => O
  | String d r => (if Ascii.eqb d c then 1 else 0) + count_char c r
  end.

Module DemoExtra.

Import Demo.

(** A deployment whose bad-words filter fails. *)
Definition filterBadWords_failing (_ : BeforeSaveBadWords) (_ : IMessage) :
    Async Store IMessage :=
  fun w => (Rejected (JsError "filter unavailable"), w).

Definition collaborators_failing_filter : Collaborators Store :=
  @Build_Collaborators Store isEditedMessage parseMarkdown
    filterBadWords_failing convertSpotifyLinks
    createAttachmentForMessageURLs isWithinLimits preventMention
    createWithTypeRoomIdMessageUserAndUnread utils_getUserAvatarURL
    findVisibleByIds findByIds canAccessRoom.

(** A deployment whose constraint check vetoes every message and counts
    the veto in the clock, and whose insertion fails. *)
Definition isWithinLimits_exceeded (_ : IMessage) (_ : IRoom) : Async Store unit :=
  fun w =>
    (Rejected (MeteorError "error-mac-limit-reached" "limit reached"),
     {| settings := settings w; clock := clock w + 1; store := store w |}).

Definition preventMention_logging (m : IMessage) (user : IUser)
    (mention permission : string) : Async Store unit :=
  fun w =>
    (fst (preventMention m user mention permission w),
     {| settings := settings w; clock := clock w + 10; store := store w |}).

Definition create_failing (_ _ _ : string) (_ : IUser) (_ : JS.value)
    (_ : option IMessage) : Async Store InsertOneResult :=
  fun w => (Rejected (JsError "write failed"), w).

Definition collaborators_over_limit : Collaborators Store :=
  @Build_Collaborators Store isEditedMessage parseMarkdown
    (BadWords.filterBadWords clean) convertSpotifyLinks
    createAttachmentForMessageURLs isWithinLimits_exceeded preventMention_logging
    create_failing utils_getUserAvatarURL
    findVisibleByIds findByIds canAccessRoom.

Definition world_plus (now : Z) (d : Z) : World Store :=
  {| settings := site_settings; clock := now + d; store := store (world_at now) |}.

Definition alice_fr : IUser :=
  {| u_id := "u1"; username := Some "alice"; name := Some "Alice";
     language := Some "fr" |}.

Definition domains_state : State Store :=
  {| this := service;
     world := {| settings := <["Message_CustomDomain_AutoLink" := JS.str " a.com ,,b.org"]>
                               site_settings;
                 clock := 0; store := store (world_at 0) |} |}.

End DemoExtra.

Module DemoExtraRuns.

Import Demo DemoExtra.

(** The deployment after a new [Site_Url] was saved, nine milliseconds
    after the epoch. *)
Definition reloaded_state : State Store :=
  {| this := service;
     world := {| settings := <["Site_Url" := JS.str "https://new.example"]> site_settings;
                 clock := 9; store := store (world_at 0) |} |}.

Definition domains_config : MarkdownConfig :=
  {| colors := JS.boolean true; emoticons := true;
     customDomains := ["a.com"; EmptyString; "b.org"]; katex := None |}.

Definition owner_of_alice : IUser :=
  {| u_id := "u1"; username := Some "alice"; name := Some "Alice"; language := None |}.

End DemoExtraRuns.
Example toLowerCase_mixed : JS.toLowerCase "TrUe" = "true".
Proof. reflexivity. Qed.

Example split_trim_domains :
  map JS.trim (JS.split "," "a.com, b.org ,c") = ["a.com"; "b.org"; "c"].
Proof. reflexivity. Qed.

(** A no-break space in front, a tab and a line separator behind. *)
Example trim_unicode_spaces :
  JS.trim (String (ascii_of_nat 194) (String (ascii_of_nat 160)
             ("a.com" +:+ String (ascii_of_nat 9)
                (String (ascii_of_nat 226) (String (ascii_of_nat 128)
                   (String (ascii_of_nat 168) EmptyString))))))
  = "a.com".
Proof. reflexivity. Qed.

(** A dagger (U+2020, E2 80 A0) ends in the byte A0 and is no space. *)
Example trim_keeps_dagger :
  JS.trim (" x" +:+ String (ascii_of_nat 226) (String (ascii_of_nat 128)
             (String (ascii_of_nat 160) EmptyString)))
  = "x" +:+ String (ascii_of_nat 226) (String (ascii_of_nat 128)
             (String (ascii_of_nat 160) EmptyString)).
Proof. reflexivity. Qed.


(** ** Laws of the monad *)

Section Runs.

Context {Store : Type}.

Lemma bind_Fulfilled {A B} (c : M Store A) (k : A -> M Store B) s a s1 t1 :
  c s = (Fulfilled a, s1, t1) ->
  bind c k s = (outcome_of (k a s1), state_of (k a s1), t1 ++ calls_of (k a s1)).
Proof.
  intros Hc. unfold bind. rewrite Hc.
  destruct (k a s1) as [[r s2] t2]. reflexivity.
Qed.

Lemma bind_Rejected {A B} (c : M Store A) (k : A -> M Store B) s e s1 t1 :
  c s = (Rejected e, s1, t1) -> bind c k s = (Rejected e, s1, t1).
Proof. intros Hc. unfold bind. rewrite Hc. reflexivity. Qed.

Lemma bind_ret_l {A B} (a : A) (k : A -> M Store B) s :
  bind (ret a) k s = k a s.
Proof. unfold bind, ret. destruct (k a s) as [[r s2] t2]. reflexivity. Qed.

Lemma bind_assoc {A B D} (c : M Store A) (k : A -> M Store B)
    (h : B -> M Store D) s :
  bind (bind c k) h s = bind c (fun a => bind (k a) h) s.
Proof.
  unfold bind. destruct (c s) as [[[a|e] s1] t1]; [|reflexivity].
  destruct (k a s1) as [[[b|e] s2] t2]; [|reflexivity].
  destruct (h b s2) as [[r s3] t3]. rewrite app_assoc. reflexivity.
Qed.

Lemma bind_ext {A B} (c : M Store A) (k k' : A -> M Store B) s :
  (forall a s1, k a s1 = k' a s1) -> bind c k s = bind c k' s.
Proof.
  intros Hk. unfold bind. destruct (c s) as [[[a|e] s1] t1]; [|reflexivity].
  rewrite Hk. reflexivity.
Qed.

Lemma bind_inv_Fulfilled {A B} (c : M Store A) (k : A -> M Store B) s b s2 t :
  bind c k s = (Fulfilled b, s2, t) ->
  exists a s1 t1 t2,
    c s = (Fulfilled a, s1, t1) /\ k a s1 = (Fulfilled b, s2, t2) /\ t = t1 ++ t2.
Proof.
  unfold bind. destruct (c s) as [[[a|e] s1] t1]; [|discriminate].
  destruct (k a s1) as [[r s2'] t2] eqn:Hk. intros [= -> -> <-].
  exists a, s1, t1, t2. auto.
Qed.

End Runs.

(** ** The pipeline *)

Section PipelineFacts.

Context {Store : Type} (C : Collaborators Store).

Lemma beforeSave_split settled m room user (s : State Store) :
  beforeSave C settled m room user s =
  bind (transformStages C m user)
    (fun m4 => validateAndReturn C settled m4 room user) s.
Proof.
  symmetry. unfold transformStages, beforeSave, validateAndReturn.
  repeat (rewrite bind_assoc; apply bind_ext; intros ? ?).
  rewrite bind_ret_l. reflexivity.
Qed.

Lemma getMarkdownConfig_run (s : State Store) :
  state_of (getMarkdownConfig s) = s /\
  forallb is_settings_get (calls_of (getMarkdownConfig s)) = true /\
  outcome_of (getMarkdownConfig s) =
    match markdownConfig_of (settings (world s)) with
    | Some cfg => Fulfilled cfg
    | None => Rejected (JsError "split is not a function")
    end.
Proof.
  unfold getMarkdownConfig, markdownConfig_of, setting, bind, settings_get, ret, throw.
  destruct (JS.truthy (default JS.undefined
              (settings (world s) !! "Message_CustomDomain_AutoLink"))) eqn:Ha;
    [destruct (default JS.undefined
              (settings (world s) !! "Message_CustomDomain_AutoLink")) eqn:Hv|];
    try (cbn; auto; fail);
    destruct (JS.truthy (default JS.undefined (settings (world s) !! "Katex_Enabled")));
    cbn; auto.
Qed.

Lemma getMarkdownConfig_eq (s : State Store) :
  getMarkdownConfig s =
  (match markdownConfig_of (settings (world s)) with
   | Some cfg => Fulfilled cfg
   | None => Rejected (JsError "split is not a function")
   end, s, calls_of (getMarkdownConfig s)).
Proof.
  destruct (getMarkdownConfig_run s) as (Hs & _ & Ho).
  destruct (getMarkdownConfig s) as [[o s0] t0].
  unfold state_of, outcome_of, calls_of in *. cbn in *. congruence.
Qed.

Lemma getMarkdownConfig_calls (s : State Store) :
  calls_of (getMarkdownConfig s) = markdownConfig_reads (settings (world s)).
Proof.
  unfold getMarkdownConfig, markdownConfig_reads, bind, settings_get, ret, throw.
  destruct (JS.truthy (default JS.undefined
              (settings (world s) !! "Message_CustomDomain_AutoLink"))) eqn:Ha;
    [destruct (default JS.undefined
              (settings (world s) !! "Message_CustomDomain_AutoLink")) eqn:Hv|];
    try (cbn; reflexivity);
    destruct (JS.truthy (default JS.undefined (settings (world s) !! "Katex_Enabled")));
    reflexivity.
Qed.

Lemma omap_stage_of_settings (t : list Call) :
  forallb is_settings_get t = true -> omap stage_of t = [].
Proof.
  induction t as [|c t IH]; [reflexivity|].
  cbn. intros [Hc Ht]%andb_prop. destruct c; try discriminate. cbn. auto.
Qed.

Lemma filter_validation_settings (t : list Call) :
  forallb is_settings_get t = true -> List.filter is_validation t = [].
Proof.
  induction t as [|c t IH]; [reflexivity|].
  cbn. intros [Hc Ht]%andb_prop. destruct c; try discriminate. cbn. auto.
Qed.

Lemma filter_stage_settings (t : list Call) :
  forallb is_settings_get t = true -> List.filter is_stage_call t = [].
Proof.
  induction t as [|c t IH]; [reflexivity|].
  cbn. intros [Hc Ht]%andb_prop. destruct c; try discriminate. cbn. auto.
Qed.

(** When the four stages fulfil, this is the run of lines 134-146. *)
Lemma transformStages_settle s m user cfg m1 m2 m3 m4 w1 w2 w3 w4 :
  stages_settle C s m user cfg m1 m2 m3 m4 w1 w2 w3 w4 ->
  transformStages C m user s =
  (Fulfilled m4, {| this := this s; world := w4 |},
   calls_of (getMarkdownConfig s) ++
   [CallParseMarkdown (markdownParser (this s)) m cfg;
    CallFilterBadWords (badWords (this s)) m1;
    CallConvertSpotifyLinks m2;
    CallSettingsGet "Message_QuoteChainLimit";
    CallSettingsGet "Site_Url";
    CallSettingsGet "UI_Use_Real_Name";
    CallCreateAttachmentForMessageURLs m3 user (jumpToMessageConfig_of (settings w3))]).
Proof.
  intros (Hcfg & H1 & H2 & H3 & H4).
  unfold transformStages, bind, get_this, await, settings_get, ret.
  rewrite getMarkdownConfig_eq, Hcfg. cbn.
  rewrite H1. cbn. rewrite H2. cbn. rewrite H3. cbn.
  unfold jumpToMessageConfig_of, setting in H4. rewrite H4. reflexivity.
Qed.

(** Conversely, a fulfilled run of lines 134-146 went through all four. *)
Lemma transformStages_inv s m user m4 s4 t4 :
  transformStages C m user s = (Fulfilled m4, s4, t4) ->
  exists cfg m1 m2 m3 w1 w2 w3 w4,
    stages_settle C s m user cfg m1 m2 m3 m4 w1 w2 w3 w4 /\
    s4 = {| this := this s; world := w4 |} /\
    t4 = calls_of (getMarkdownConfig s) ++
         [CallParseMarkdown (markdownParser (this s)) m cfg;
          CallFilterBadWords (badWords (this s)) m1;
          CallConvertSpotifyLinks m2;
          CallSettingsGet "Message_QuoteChainLimit";
          CallSettingsGet "Site_Url";
          CallSettingsGet "UI_Use_Real_Name";
          CallCreateAttachmentForMessageURLs m3 user
            (jumpToMessageConfig_of (settings w3))].
Proof.
  unfold transformStages, bind, get_this, await, settings_get, ret.
  rewrite getMarkdownConfig_eq.
  destruct (markdownConfig_of (settings (world s))) as [cfg|] eqn:Hcfg;
    [|discriminate].
  cbn.
  destruct (parseMarkdown C (markdownParser (this s)) m cfg (world s))
    as [[m1|e] w1] eqn:H1; [|discriminate]. cbn.
  destruct (filterBadWords C (badWords (this s)) m1 w1)
    as [[m2|e] w2] eqn:H2; [|discriminate]. cbn.
  destruct (convertSpotifyLinks C m2 w2) as [[m3|e] w3] eqn:H3; [|discriminate].
  cbn.
  destruct (createAttachmentForMessageURLs C m3 user
              (jumpToMessageConfig_of (settings w3)) w3)
    as [[m4'|e] w4] eqn:H4;
    unfold jumpToMessageConfig_of, setting in H4; rewrite H4; [|discriminate].
  intros [= <- <- <-].
  exists cfg, m1, m2, m3, w1, w2, w3, w4.
  unfold stages_settle, jumpToMessageConfig_of, setting.
  repeat split; auto.
Qed.

Lemma isEditedOrOld_eq m (s : State Store) :
  isEditedOrOld C m s =
  (Fulfilled (negb (fresh_and_unedited C (clock (world s)) m)), s, []).
Proof.
  unfold isEditedOrOld, fresh_and_unedited.
  destruct (isEditedMessage C m); [reflexivity|].
  destruct (ts m) as [t|]; [|reflexivity].
  unfold bind, Date_now, ret. cbn.
  rewrite Z.ltb_antisym. reflexivity.
Qed.

(** Lines 148-156 in closed form. *)
Lemma validateAndReturn_eq settled m room user (s : State Store) :
  validateAndReturn C settled m room user s =
  if fresh_and_unedited C (clock (world s)) m then
    (match first_rejection
             (omap (fun i => checks C m room user (world s) !! i) settled
              ++ checks C m room user (world s)) with
     | Some e => Rejected e
     | None => Fulfilled m
     end,
     {| this := this s; world := world_after_checks C m room user (world s) |},
     validationCalls m room user)
  else (Fulfilled m, s, []).
Proof.
  unfold validateAndReturn, bind. rewrite isEditedOrOld_eq.
  destruct (fresh_and_unedited C (clock (world s)) m); [|reflexivity].
  cbn. unfold start, checks, world_after_checks, Promise_all, validationCalls.
  cbn.
  destruct (isWithinLimits C m room (world s)) as [p1 w1]. cbn.
  destruct (preventMention C m user "all" "mention-all" w1) as [p2 w2]. cbn.
  destruct (preventMention C m user "here" "mention-here" w2) as [p3 w3]. cbn.
  unfold throw, ret.
  destruct (first_rejection
              (omap (fun i => [p1; p2; p3] !! i) settled ++ [p1; p2; p3]));
    reflexivity.
Qed.

Lemma first_rejection_In {A} (ps : list (Outcome A)) e :
  first_rejection ps = Some e -> In (Rejected e) ps.
Proof.
  induction ps as [|[a|e'] ps IH]; cbn; [discriminate| |].
  - intros H. right. auto.
  - intros [= ->]. left. reflexivity.
Qed.

Lemma first_rejection_None {A} (ps : list (Outcome A)) :
  first_rejection ps = None <-> forall e, ~ In (Rejected e) ps.
Proof.
  induction ps as [|[a|e'] ps IH]; cbn.
  - split; [intros _ e []|reflexivity].
  - rewrite IH. split.
    + intros H e [He|He]; [discriminate|]. exact (H e He).
    + intros H e He. apply (H e). right. exact He.
  - split; [discriminate|]. intros H. destruct (H e'). left. reflexivity.
Qed.

Lemma In_omap_lookup {A} (ps : list A) (settled : list nat) x :
  In x (omap (fun i => ps !! i) settled) -> In x ps.
Proof.
  induction settled as [|i settled IH]; cbn; [intros []|].
  destruct (ps !! i) as [y|] eqn:Hy; cbn; [|exact IH].
  intros [<-|H]; [|auto].
  apply list_elem_of_In. eapply list_elem_of_lookup_2. exact Hy.
Qed.

(** Whatever the order of settlement, [Promise.all] rejects with the
    reason of one of the rejected promises, and only when there is one. *)
Lemma first_rejection_settled {A} (ps : list (Outcome A)) (settled : list nat) :
  match first_rejection (omap (fun i => ps !! i) settled ++ ps) with
  | Some e => In (Rejected e) ps
  | None => forall e, ~ In (Rejected e) ps
  end.
Proof.
  destruct (first_rejection (omap (fun i => ps !! i) settled ++ ps)) as [e|] eqn:H.
  - apply first_rejection_In in H. apply in_app_or in H.
    destruct H as [H|H]; [eapply In_omap_lookup; eauto|assumption].
  - intros e He. apply first_rejection_None with (e := e) in H.
    apply H. apply in_or_app. right. exact He.
Qed.

Lemma transformStages_stages s m user :
  omap stage_of (calls_of (transformStages C m user s)) `prefix_of`
    [MarkdownStage; BadWordsStage; LinkEnrichmentStage; QuoteLinkStage] /\
  (forall m4, outcome_of (transformStages C m user s) = Fulfilled m4 ->
     omap stage_of (calls_of (transformStages C m user s)) =
     [MarkdownStage; BadWordsStage; LinkEnrichmentStage; QuoteLinkStage]).
Proof.
  destruct (getMarkdownConfig_run s) as (_ & Hget & _).
  apply omap_stage_of_settings in Hget.
  unfold transformStages, bind, get_this, await, settings_get, ret.
  rewrite getMarkdownConfig_eq.
  set (tcfg := calls_of (getMarkdownConfig s)) in *.
  destruct (markdownConfig_of (settings (world s))) as [cfg|]; cbn;
    [|rewrite Hget; split; [eexists; reflexivity|discriminate]].
  destruct (parseMarkdown C (markdownParser (this s)) m cfg (world s))
    as [[m1|e] w1]; cbn;
    [|rewrite omap_app, Hget; split; [eexists; reflexivity|discriminate]].
  destruct (filterBadWords C (badWords (this s)) m1 w1) as [[m2|e] w2]; cbn;
    [|rewrite omap_app, Hget; split; [eexists; reflexivity|discriminate]].
  destruct (convertSpotifyLinks C m2 w2) as [[m3|e] w3]; cbn;
    [|rewrite omap_app, Hget; split; [eexists; reflexivity|discriminate]].
  match goal with
  | |- context [createAttachmentForMessageURLs C ?a ?b ?c ?d] =>
      destruct (createAttachmentForMessageURLs C a b c d) as [[m4|e] w4]
  end; cbn; rewrite omap_app, Hget; split;
    try (eexists; reflexivity); try discriminate; reflexivity.
Qed.

(** In every run, rejected or not, the calls to the stages come in the
    order of the pipeline. *)
Lemma beforeSave_stages_in_order settled m room user (s : State Store) :
  omap stage_of (calls_of (beforeSave C settled m room user s))
    `prefix_of` pipeline_order.
Proof.
  rewrite beforeSave_split.
  destruct (transformStages_stages s m user) as [Hpre Hfull].
  unfold bind.
  destruct (transformStages C m user s) as [[[m4|e] s4] t4]; cbn in *.
  - rewrite validateAndReturn_eq.
    destruct (fresh_and_unedited C (clock (world s4)) m4); cbn;
      rewrite omap_app, (Hfull m4 eq_refl); cbn; eexists; reflexivity.
  - destruct Hpre as [k Hk]. exists (k ++ [ConstraintCheckStage;
      MentionGuardStage "all"; MentionGuardStage "here"]).
    unfold pipeline_order. rewrite app_assoc, <- Hk. reflexivity.
Qed.

End PipelineFacts.

(** ** Freshness and step 6 *)

Section Freshness.

Context {Store : Type} (C : Collaborators Store).

Lemma fresh_and_unedited_true now m :
  fresh_and_unedited C now m = true <->
  isEditedMessage C m = false /\
  exists t, ts m = Some t /\ Z.abs (now - t) <= 60000.
Proof.
  unfold fresh_and_unedited. split.
  - intros [He Ht]%andb_prop. apply negb_true_iff in He. split; [exact He|].
    destruct (ts m) as [t|]; [|discriminate].
    exists t. split; [reflexivity|]. apply Z.leb_le. exact Ht.
  - intros (He & t & Hts & Ht). rewrite He, Hts. cbn. apply Z.leb_le. exact Ht.
Qed.

(** The calls of a run whose four stages fulfil. *)
Lemma beforeSave_calls settled m room user s cfg m1 m2 m3 m4 w1 w2 w3 w4 :
  stages_settle C s m user cfg m1 m2 m3 m4 w1 w2 w3 w4 ->
  calls_of (beforeSave C settled m room user s) =
  calls_of (getMarkdownConfig s) ++
  [CallParseMarkdown (markdownParser (this s)) m cfg;
   CallFilterBadWords (badWords (this s)) m1;
   CallConvertSpotifyLinks m2;
   CallSettingsGet "Message_QuoteChainLimit";
   CallSettingsGet "Site_Url";
   CallSettingsGet "UI_Use_Real_Name";
   CallCreateAttachmentForMessageURLs m3 user (jumpToMessageConfig_of (settings w3))] ++
  (if fresh_and_unedited C (clock w4) m4 then validationCalls m4 room user else []).
Proof.
  intros H. rewrite beforeSave_split.
  rewrite (bind_Fulfilled _ _ _ _ _ _ (transformStages_settle C _ _ _ _ _ _ _ _ _ _ _ _ H)).
  rewrite validateAndReturn_eq. cbn [world].
  destruct (fresh_and_unedited C (clock w4) m4); unfold calls_of; cbn [snd];
    rewrite <- app_assoc; reflexivity.
Qed.

(** The outcome of a run whose four stages fulfil. *)
Lemma beforeSave_outcome settled m room user s cfg m1 m2 m3 m4 w1 w2 w3 w4 :
  stages_settle C s m user cfg m1 m2 m3 m4 w1 w2 w3 w4 ->
  outcome_of (beforeSave C settled m room user s) =
  if fresh_and_unedited C (clock w4) m4 then
    match first_rejection
            (omap (fun i => checks C m4 room user w4 !! i) settled
             ++ checks C m4 room user w4) with
    | Some e => Rejected e
    | None => Fulfilled m4
    end
  else Fulfilled m4.
Proof.
  intros H. rewrite beforeSave_split.
  rewrite (bind_Fulfilled _ _ _ _ _ _ (transformStages_settle C _ _ _ _ _ _ _ _ _ _ _ _ H)).
  rewrite validateAndReturn_eq. cbn [world].
  destruct (fresh_and_unedited C (clock w4) m4); reflexivity.
Qed.

Lemma beforeSave_validation_calls settled m room user s cfg m1 m2 m3 m4 w1 w2 w3 w4 :
  stages_settle C s m user cfg m1 m2 m3 m4 w1 w2 w3 w4 ->
  List.filter is_validation (calls_of (beforeSave C settled m room user s)) =
  if fresh_and_unedited C (clock w4) m4 then validationCalls m4 room user else [].
Proof.
  intros H. rewrite (beforeSave_calls _ _ _ _ _ _ _ _ _ _ _ _ _ _ H).
  destruct (getMarkdownConfig_run s) as (_ & Hget & _).
  rewrite !List.filter_app, (filter_validation_settings _ Hget).
  destruct (fresh_and_unedited C (clock w4) m4); reflexivity.
Qed.

(** C1 (as amended).  In a run of [beforeSave] whose four transform
    stages fulfil, the three checks of step 6 are called exactly when the
    message returned by stage 4 has no edited marker, HAS a creation
    timestamp, and that timestamp is at most 60000 ms away from the
    clock when stage 4 has settled; otherwise none of them is called. *)
Theorem beforeSave_validation_iff settled m room user s cfg m1 m2 m3 m4 w1 w2 w3 w4 :
  stages_settle C s m user cfg m1 m2 m3 m4 w1 w2 w3 w4 ->
  (List.filter is_validation (calls_of (beforeSave C settled m room user s))
     = validationCalls m4 room user <->
   isEditedMessage C m4 = false /\
   exists t, ts m4 = Some t /\ Z.abs (clock w4 - t) <= 60000) /\
  (List.filter is_validation (calls_of (beforeSave C settled m room user s)) = [] <->
   ~ (isEditedMessage C m4 = false /\
      exists t, ts m4 = Some t /\ Z.abs (clock w4 - t) <= 60000)).
Proof.
  intros H. rewrite (beforeSave_validation_calls _ _ _ _ _ _ _ _ _ _ _ _ _ _ H).
  rewrite <- fresh_and_unedited_true.
  destruct (fresh_and_unedited C (clock w4) m4); unfold validationCalls.
  - split; split; auto; try discriminate.
    intros Hn. destruct Hn. reflexivity.
  - split; split; auto; discriminate.
Qed.

(** C2.  In every run of [beforeSave] the stage calls come in the order
    Markdown, BadWords, LinkEnrichment (Spotify), QuoteLink, then step 6;
    and when the four transform stages fulfil, each is called once, on the
    message the previous one returned, before any check of step 6, which
    is called on the message the fourth returned. *)
Theorem beforeSave_stage_order settled m room user (s : State Store) :
  omap stage_of (calls_of (beforeSave C settled m room user s))
    `prefix_of` pipeline_order /\
  forall cfg m1 m2 m3 m4 w1 w2 w3 w4,
    stages_settle C s m user cfg m1 m2 m3 m4 w1 w2 w3 w4 ->
    List.filter is_stage_call (calls_of (beforeSave C settled m room user s)) =
    transformCalls s m user cfg m1 m2 m3 w3 ++
    (if fresh_and_unedited C (clock w4) m4
     then validationCalls m4 room user else []).
Proof.
  split; [apply beforeSave_stages_in_order|].
  intros cfg m1 m2 m3 m4 w1 w2 w3 w4 H.
  rewrite (beforeSave_calls _ _ _ _ _ _ _ _ _ _ _ _ _ _ H).
  destruct (getMarkdownConfig_run s) as (_ & Hget & _).
  rewrite !List.filter_app, (filter_stage_settings _ Hget).
  destruct (fresh_and_unedited C (clock w4) m4); reflexivity.
Qed.


(** C4.  In a run whose four transform stages fulfil, if the message
    returned by stage 4 has an edited marker, or its creation timestamp lies
    more than 60000 ms before the clock at that point, then no check of step
    6 is called, and the run fulfils with the transformed message, whatever the
    message contains and whatever the checks would have answered. *)
Theorem beforeSave_edited_or_old_skips_checks settled m room user s cfg m1 m2 m3 m4 w1 w2 w3 w4 :
  stages_settle C s m user cfg m1 m2 m3 m4 w1 w2 w3 w4 ->
  (isEditedMessage C m4 = true \/
   exists t, ts m4 = Some t /\ clock w4 - t > 60000) ->
  List.filter is_validation (calls_of (beforeSave C settled m room user s)) = [] /\
  outcome_of (beforeSave C settled m room user s) = Fulfilled m4.
Proof.
  intros H Hold.
  assert (Hclosed : fresh_and_unedited C (clock w4) m4 = false).
  { unfold fresh_and_unedited. destruct Hold as [He|(t & Hts & Ht)].
    - rewrite He. reflexivity.
    - rewrite Hts. apply andb_false_iff. right. apply Z.leb_gt. lia. }
  rewrite (beforeSave_validation_calls _ _ _ _ _ _ _ _ _ _ _ _ _ _ H),
    (beforeSave_outcome _ _ _ _ _ _ _ _ _ _ _ _ _ _ H), Hclosed.
  split; reflexivity.
Qed.

Lemma config_read_in_run_settings s m (t : list Call) :
  forallb is_settings_get t = true -> Forall (config_read_in_run C s m) t.
Proof.
  intros Hall. apply List.Forall_forall. intros c Hin.
  rewrite forallb_forall in Hall. specialize (Hall c Hin).
  destruct c; try discriminate. exact I.
Qed.

Lemma transformStages_config_reads m user (s : State Store) :
  Forall (config_read_in_run C s m) (calls_of (transformStages C m user s)).
Proof.
  destruct (getMarkdownConfig_run s) as (_ & Hget & _).
  apply (config_read_in_run_settings s m) in Hget.
  unfold transformStages, bind, get_this, await, settings_get, ret.
  rewrite getMarkdownConfig_eq.
  set (tcfg := calls_of (getMarkdownConfig s)) in *.
  destruct (markdownConfig_of (settings (world s))) as [cfg|] eqn:Hcfg; cbn;
    [|exact Hget].
  destruct (parseMarkdown C (markdownParser (this s)) m cfg (world s))
    as [[m1|e1] w1] eqn:H1; cbn;
    [|apply Forall_app; split; [exact Hget|repeat constructor; exact Hcfg]].
  destruct (filterBadWords C (badWords (this s)) m1 w1) as [[m2|e2] w2] eqn:H2; cbn;
    [|apply Forall_app; split; [exact Hget|repeat constructor; exact Hcfg]].
  destruct (convertSpotifyLinks C m2 w2) as [[m3|e3] w3] eqn:H3; cbn;
    [|apply Forall_app; split; [exact Hget|repeat constructor; exact Hcfg]].
  assert (Hafter : after_spotify C s m = Some (m3, w3)).
  { unfold after_spotify. rewrite Hcfg, H1, H2, H3. reflexivity. }
  match goal with
  | |- context [createAttachmentForMessageURLs C ?a ?b ?c ?d] =>
      destruct (createAttachmentForMessageURLs C a b c d) as [[m4|e4] w4]
  end; cbn; (apply Forall_app; split; [exact Hget|]);
    repeat (apply List.Forall_cons;
            [first [exact I | split; [reflexivity|exact Hcfg]
                   | exists w3; split; [exact Hafter|reflexivity]]|]);
    apply List.Forall_nil.
Qed.

(** C9 (as amended).  A run reads the settings at two points.  The
    markdown configuration is read when the run starts, from the settings
    of the starting state; the configuration of the QuoteLink stage is read
    when stage 4 is called, from the settings of the world in which the
    Spotify stage of this very run settled.  In a run whose four stages
    fulfil the calls are exactly: the reads of the markdown configuration,
    stages 1 to 3, the three reads of the QuoteLink configuration, stage 4,
    then step 6 if the message is fresh. *)
Theorem beforeSave_config_reads settled m room user (s : State Store) :
  Forall (config_read_in_run C s m) (calls_of (beforeSave C settled m room user s)) /\
  forall cfg m1 m2 m3 m4 w1 w2 w3 w4,
    stages_settle C s m user cfg m1 m2 m3 m4 w1 w2 w3 w4 ->
    calls_of (beforeSave C settled m room user s) =
    markdownConfig_reads (settings (world s)) ++
    [CallParseMarkdown (markdownParser (this s)) m cfg;
     CallFilterBadWords (badWords (this s)) m1;
     CallConvertSpotifyLinks m2;
     CallSettingsGet "Message_QuoteChainLimit";
     CallSettingsGet "Site_Url";
     CallSettingsGet "UI_Use_Real_Name";
     CallCreateAttachmentForMessageURLs m3 user (jumpToMessageConfig_of (settings w3))] ++
    (if fresh_and_unedited C (clock w4) m4 then validationCalls m4 room user else []).
Proof.
  split.
  - rewrite beforeSave_split.
    pose proof (transformStages_config_reads m user s) as Ht.
    unfold bind.
    destruct (transformStages C m user s) as [[[m4|e] s4] t4]; [|exact Ht].
    rewrite validateAndReturn_eq.
    destruct (fresh_and_unedited C (clock (world s4)) m4); cbn in *.
    + apply Forall_app. split; [exact Ht|].
      repeat (apply List.Forall_cons; [exact I|]). apply List.Forall_nil.
    + rewrite app_nil_r. exact Ht.
  - intros cfg m1 m2 m3 m4 w1 w2 w3 w4 H.
    rewrite (beforeSave_calls _ _ _ _ _ _ _ _ _ _ _ _ _ _ H).
    rewrite getMarkdownConfig_calls. reflexivity.
Qed.

End Freshness.

(** ** The QuoteLink stage *)

Section QuoteLinkFacts.

Context {Store : Type} (deps : @QuoteLink.Dependencies Store).

Lemma quotes_take_quotable limit user w links :
  QuoteLink.quotes deps limit user w links =
  omap (QuoteLink.quote deps user w)
    (firstn limit (List.filter (QuoteLink.quotable deps user w) links)).
Proof.
  revert limit. induction links as [|l rest IH]; intros limit.
  - destruct limit; reflexivity.
  - destruct limit as [|limit']; [reflexivity|].
    cbn [QuoteLink.quotes List.filter]. unfold QuoteLink.quotable at 1.
    destruct (QuoteLink.quote deps user w l) as [a|] eqn:Hq.
    + cbn. rewrite Hq, IH. reflexivity.
    + apply IH.
Qed.

Lemma length_omap_quotable user w links :
  forallb (QuoteLink.quotable deps user w) links = true ->
  length (omap (QuoteLink.quote deps user w) links) = length links.
Proof.
  induction links as [|l rest IH]; [reflexivity|].
  cbn. intros [Hl Hrest]%andb_prop. unfold QuoteLink.quotable in Hl.
  destruct (QuoteLink.quote deps user w l); [|discriminate].
  cbn. rewrite (IH Hrest). reflexivity.
Qed.

Lemma In_firstn {A} (x : A) n l : In x (firstn n l) -> In x l.
Proof.
  revert n. induction l as [|y l IH]; intros [|n]; cbn; try tauto.
  intros [->|H]; [left; reflexivity|right; eauto].
Qed.

Lemma forallb_firstn_filter {A} (p : A -> bool) n l :
  forallb p (firstn n (List.filter p l)) = true.
Proof.
  apply forallb_forall. intros x Hx.
  apply In_firstn in Hx. apply List.filter_In in Hx. tauto.
Qed.

(** C5.  With [K] the number of valid, accessible permalinks in the text
    and chain limit [limit], the QuoteLink stage fulfils with the message
    extended by the quotations of the first [limit] such links, in their
    order in the text: [min K limit] attachments. *)
Theorem quoteLink_chain_limit (permalinks : string -> string -> list QuoteLink.Permalink)
    limit site message user w :
  exists appended,
    QuoteLink.createAttachmentForMessageURLs deps permalinks limit site message user w
      = (Fulfilled (add_attachments appended message), w) /\
    attachments (add_attachments appended message) = attachments message ++ appended /\
    appended =
      omap (QuoteLink.quote deps user w)
        (firstn limit
           (List.filter (QuoteLink.quotable deps user w)
              (permalinks site (msg message)))) /\
    length appended =
      Nat.min
        (length (List.filter (QuoteLink.quotable deps user w)
                   (permalinks site (msg message))))
        limit.
Proof.
  exists (QuoteLink.quotes deps limit user w (permalinks site (msg message))).
  rewrite quotes_take_quotable.
  repeat split.
  - unfold QuoteLink.createAttachmentForMessageURLs.
    rewrite quotes_take_quotable. reflexivity.
  - rewrite length_omap_quotable by apply forallb_firstn_filter.
    rewrite List.length_firstn. apply Nat.min_comm.
Qed.

End QuoteLinkFacts.

(** ** The parser flag is never reassigned *)

Section Keeps.

Context {Store : Type} (C : Collaborators Store).

Lemma keeps_bind {A B} (c : M Store A) (k : A -> M Store B) :
  keeps_markdownParser c -> (forall a, keeps_markdownParser (k a)) ->
  keeps_markdownParser (bind c k).
Proof.
  intros Hc Hk s. specialize (Hc s). unfold bind.
  destruct (c s) as [[[a|e] s1] t1]; [|exact Hc].
  specialize (Hk a s1). destruct (k a s1) as [[r s2] t2].
  unfold state_of in *. cbn in *. congruence.
Qed.

Lemma keeps_ret {A} (a : A) : keeps_markdownParser (Store := Store) (ret a).
Proof. intros s. reflexivity. Qed.

Lemma keeps_throw {A} e : keeps_markdownParser (Store := Store) (A := A) (throw e).
Proof. intros s. reflexivity. Qed.

Lemma keeps_await {A} c (f : Async Store A) : keeps_markdownParser (await c f).
Proof. intros s. unfold await. destruct (f (world s)). reflexivity. Qed.

Lemma keeps_start {A} c (f : Async Store A) : keeps_markdownParser (start c f).
Proof. intros s. unfold start. destruct (f (world s)). reflexivity. Qed.

Lemma keeps_settings_get key : keeps_markdownParser (Store := Store) (settings_get key).
Proof. intros s. reflexivity. Qed.

Lemma keeps_get_this : keeps_markdownParser (Store := Store) get_this.
Proof. intros s. reflexivity. Qed.

Lemma keeps_Date_now : keeps_markdownParser (Store := Store) Date_now.
Proof. intros s. reflexivity. Qed.

Lemma keeps_void c : keeps_markdownParser (Store := Store) (void c).
Proof. intros s. reflexivity. Qed.

Lemma keeps_Promise_all {A} settled (ps : list (Outcome A)) :
  keeps_markdownParser (Store := Store) (Promise_all settled ps).
Proof. intros s. unfold Promise_all. destruct (first_rejection _); reflexivity. Qed.

Ltac keeps :=
  repeat (intros;
    first [ apply keeps_bind | apply keeps_ret | apply keeps_throw
          | apply keeps_await | apply keeps_start | apply keeps_settings_get
          | apply keeps_get_this | apply keeps_Date_now | apply keeps_void
          | apply keeps_Promise_all
          | match goal with
            | |- keeps_markdownParser (if ?b then _ else _) => destruct b
            | |- keeps_markdownParser (match ?x with _ => _ end) => destruct x
            end ]).

Lemma keeps_beforeSave settled m room user :
  keeps_markdownParser (beforeSave C settled m room user).
Proof. unfold beforeSave, getMarkdownConfig, isEditedOrOld. keeps. Qed.

Lemma keeps_saveSystemMessage type rid message owner extraData :
  keeps_markdownParser (saveSystemMessage C type rid message owner extraData).
Proof. unfold saveSystemMessage. keeps. Qed.

Lemma keeps_configureBadWords_callback values :
  keeps_markdownParser (Store := Store) (configureBadWords_callback values).
Proof.
  intros s. unfold configureBadWords_callback, bind, get_this, set_this.
  destruct (negb _); reflexivity.
Qed.

End Keeps.

(** ** The rest of the service *)

Section ServiceFacts.

Context {Store : Type} (C : Collaborators Store).

(** C6.  When the watcher delivers a falsy [Message_AllowBadWordsFilter],
    the filter is disabled, whatever the lists delivered with it, and the
    stage returns every message as it is; when it delivers a truthy one,
    the filter is configured with the delivered list and whitelist.  A
    notification delivers the current values of the three settings. *)
Theorem configureBadWords_flag (s : State Store) :
  (forall flag badWordsList whiteList,
     let s' := state_of (configureBadWords_callback [flag; badWordsList; whiteList] s) in
     (JS.truthy flag = false ->
      badWords (this s') = BadWordsDisabled /\
      forall clean m (w : World Store),
        BadWords.filterBadWords clean (badWords (this s')) m w = (Fulfilled m, w)) /\
     (JS.truthy flag = true ->
      badWords (this s') = BadWordsConfigured badWordsList whiteList)) /\
  state_of (configureBadWords_notify s) =
  state_of (configureBadWords_callback
              [setting (settings (world s)) "Message_AllowBadWordsFilter";
               setting (settings (world s)) "Message_BadWordsFilterList";
               setting (settings (world s)) "Message_BadWordsWhitelist"] s).
Proof.
  split; [|reflexivity].
  intros flag badWordsList whiteList s'. subst s'.
  unfold configureBadWords_callback, bind, get_this, set_this.
  cbn [nth]. destruct (JS.truthy flag); cbn.
  - split; [discriminate|reflexivity].
  - split; [|discriminate]. intros _. split; reflexivity.
Qed.

(** C7.  [saveSystemMessage] with an owner whose username is missing or
    empty rejects with 'The username cannot be empty.', calls no
    collaborator and leaves the world as it was.  With a non-empty
    username it inserts the message and, when the insertion fulfils,
    announces and returns the inserted identifier. *)
Theorem saveSystemMessage_username type rid message owner extraData (s : State Store) :
  ((username owner = None \/ username owner = Some EmptyString) ->
   saveSystemMessage C type rid message owner extraData s =
   (Rejected (JsError "The username cannot be empty."), s, [])) /\
  (forall n result w',
     username owner = Some n -> n <> EmptyString ->
     createWithTypeRoomIdMessageUserAndUnread C type rid message
       {| u_id := u_id owner; username := Some n; name := name owner;
          language := None |}
       (setting (settings (world s)) "Message_Read_Receipt_Enabled")
       extraData (world s) = (Fulfilled result, w') ->
     saveSystemMessage C type rid message owner extraData s =
     (Fulfilled (insertedId result), {| this := this s; world := w' |},
      [CallSettingsGet "Message_Read_Receipt_Enabled";
       CallCreateWithTypeRoomIdMessageUserAndUnread type rid message
         {| u_id := u_id owner; username := Some n; name := name owner;
            language := None |}
         (setting (settings (world s)) "Message_Read_Receipt_Enabled") extraData;
       CallBroadcastMessageSentEvent (insertedId result)])).
Proof.
  unfold saveSystemMessage. split.
  - intros [-> | ->]; reflexivity.
  - intros n result w' -> Hn Hins. cbn.
    destruct (String.eqb_spec n EmptyString); [contradiction|]. cbn.
    unfold bind, settings_get, await, void, ret. cbn.
    unfold setting in Hins. rewrite Hins. reflexivity.
Qed.

(** C8.  The avatar resolver handed to the QuoteLink stage returns the
    empty string when there is no username or when the lookup gives no
    URL; it is a total function, with no rejecting outcome.  The stage
    then quotes with the empty string as avatar URL. *)
Theorem getUserAvatarURL_best_effort (user : JS.value) (w : World Store) :
  (user = JS.undefined \/ user = JS.str EmptyString \/
   exists n, user = JS.str n /\ JS.truthy (utils_getUserAvatarURL C n w) = false) ->
  getUserAvatarURL C user w = JS.str EmptyString /\
  forall l acting quoted room,
    from_option JS.str JS.undefined (username (u quoted)) = user ->
    head (findVisibleByIds C [QuoteLink.link_mid l] w) = Some quoted ->
    head (findByIds C [QuoteLink.link_rid l] w) = Some room ->
    Authorization_canAccessRoom C room acting w = true ->
    QuoteLink.quote (jumpToMessageDependencies C) acting w l =
    Some (QuoteAttachment (default EmptyString (username (u quoted))) (msg quoted) EmptyString
            (QuoteLink.link_url l)).
Proof.
  intros Hno.
  assert (Hempty : getUserAvatarURL C user w = JS.str EmptyString).
  { unfold getUserAvatarURL.
    destruct Hno as [-> | [-> | (n & -> & Hurl)]]; try reflexivity.
    destruct (JS.truthy (JS.str n)) eqn:Hn;
      [rewrite Hurl|rewrite Hn]; reflexivity. }
  split; [exact Hempty|].
  intros l acting quoted room Huser Hm Hr Hacc.
  unfold QuoteLink.quote. cbn [jumpToMessageDependencies QuoteLink.getMessages
    QuoteLink.getRooms QuoteLink.canAccessRoom QuoteLink.getUserAvatarURL].
  rewrite Hm, Hr, Hacc, Huser, Hempty. reflexivity.
Qed.

(** C10.  The parser is constructed disabled exactly when
    DISABLE_MESSAGE_PARSER is set and its value, lowercased, is 'yes' or
    'true'; unset or otherwise, it is enabled.  No method of the service
    changes the parser afterwards. *)
Theorem markdownParser_disabled_iff (process_env : gmap string string)
    (fresh : BeforeSaveBadWords) :
  (enabled (markdownParser (created (disableMarkdownParser process_env) fresh))
     = false <->
   exists v, process_env !! "DISABLE_MESSAGE_PARSER" = Some v /\
             (JS.toLowerCase v = "yes" \/ JS.toLowerCase v = "true")) /\
  (process_env !! "DISABLE_MESSAGE_PARSER" = None ->
   enabled (markdownParser (created (disableMarkdownParser process_env) fresh))
     = true) /\
  (forall settled m room user,
     keeps_markdownParser (beforeSave C settled m room user)) /\
  (forall type rid message owner extraData,
     keeps_markdownParser (saveSystemMessage C type rid message owner extraData)) /\
  (forall values,
     keeps_markdownParser (Store := Store) (configureBadWords_callback values)).
Proof.
  split; [|split; [|auto using keeps_beforeSave, keeps_saveSystemMessage,
                      keeps_configureBadWords_callback]];
    unfold created, disableMarkdownParser, JS.includes; cbn [enabled markdownParser].
  - rewrite negb_false_iff. cbn [existsb]. rewrite orb_false_r, orb_true_iff.
    rewrite !String.eqb_eq.
    destruct (process_env !! "DISABLE_MESSAGE_PARSER") as [v|]; cbn [JS.String_].
    + split.
      * intros [H|H]; exists v; split; auto.
      * intros (v' & [= <-] & [H|H]); auto.
    + split.
      * intros [H|H]; discriminate.
      * intros (v' & [=] & _).
  - intros ->. reflexivity.
Qed.

End ServiceFacts.


(** ** The service on the small deployment *)

Section DemoFacts.

Import Demo DemoRuns.

(** A message sent a second ago: all three checks are called. *)
Lemma beforeSave_validation_iff_witness :
  List.filter is_validation
    (calls_of (beforeSave collaborators in_order recent general alice (state_at 6000)))
  = validationCalls (rendered recent) general alice.
Proof.
  refine (proj2 (proj1 (beforeSave_validation_iff collaborators in_order recent
    general alice (state_at 6000) markdownConfig
    (rendered recent) (rendered recent) (rendered recent) (rendered recent)
    (world_at 6000) (world_at 6000) (world_at 6000) (world_at 6000) _)) _).
  - unfold stages_settle. repeat split.
  - split; [reflexivity|]. exists 5000. split; [reflexivity|].
    vm_compute. discriminate.
Defined.

(** A message without a creation timestamp is fresh in the words of the
    spec, yet no check is called on it. *)
Lemma beforeSave_undated_not_validated :
  ~ validation_iff_spec_fresh collaborators in_order undated general alice
      (state_at 6000).
Proof.
  intros H.
  destruct (H (rendered undated) (state_at 6000)
              (calls_of (transformStages collaborators undated alice (state_at 6000)))
              eq_refl) as [_ Hruns].
  specialize (Hruns eq_refl). vm_compute in Hruns. discriminate.
Qed.

Lemma beforeSave_stage_order_witness :
  List.filter is_stage_call
    (calls_of (beforeSave collaborators in_order recent general alice (state_at 6000)))
  = transformCalls (state_at 6000) recent alice markdownConfig
      (rendered recent) (rendered recent) (rendered recent) (world_at 6000)
    ++ validationCalls (rendered recent) general alice.
Proof.
  refine (proj2 (beforeSave_stage_order collaborators in_order recent general alice
    (state_at 6000)) markdownConfig
    (rendered recent) (rendered recent) (rendered recent) (rendered recent)
    (world_at 6000) (world_at 6000) (world_at 6000) (world_at 6000) _).
  unfold stages_settle. repeat split.
Defined.



(** The same message once edited: no check is called, the run fulfils. *)
Lemma beforeSave_edited_or_old_skips_checks_witness :
  List.filter is_validation
    (calls_of (beforeSave collaborators in_order edited general alice (state_at 6000)))
  = [] /\
  outcome_of (beforeSave collaborators in_order edited general alice (state_at 6000))
  = Fulfilled (rendered edited).
Proof.
  refine (beforeSave_edited_or_old_skips_checks collaborators in_order edited general alice
    (state_at 6000) markdownConfig
    (rendered edited) (rendered edited) (rendered edited) (rendered edited)
    (world_at 6000) (world_at 6000) (world_at 6000) (world_at 6000) _ _).
  - unfold stages_settle. repeat split.
  - left. reflexivity.
Defined.

(** A new [Site_Url] saved while the Spotify stage is awaited reaches the
    QuoteLink stage of the same run. *)
Lemma beforeSave_rereads_settings :
  ~ single_snapshot site_settings
      (calls_of (beforeSave collaborators_during_reload in_order recent general alice
                   (state_at 6000))).
Proof.
  intros H.
  specialize (H (CallCreateAttachmentForMessageURLs (rendered recent) alice
                   (jumpToMessageConfig_of
                      (<["Site_Url" := JS.str "https://new.example"]> site_settings)))).
  cbn beta iota in H.
  assert (Hin : In (CallCreateAttachmentForMessageURLs (rendered recent) alice
                   (jumpToMessageConfig_of
                      (<["Site_Url" := JS.str "https://new.example"]> site_settings)))
              (calls_of (beforeSave collaborators_during_reload in_order recent
                           general alice (state_at 6000)))).
  { vm_compute. do 9 right. left. reflexivity. }
  specialize (H Hin). vm_compute in H. discriminate.
Qed.

(** The run during which [Site_Url] changes: stage 4 is called with the
    configuration read from the settings the Spotify stage left. *)
Lemma beforeSave_config_reads_witness :
  calls_of (beforeSave collaborators_during_reload in_order recent general alice
              (state_at 6000)) =
  markdownConfig_reads site_settings ++
  [CallParseMarkdown (markdownParser service) recent markdownConfig;
   CallFilterBadWords (badWords service) (rendered recent);
   CallConvertSpotifyLinks (rendered recent);
   CallSettingsGet "Message_QuoteChainLimit";
   CallSettingsGet "Site_Url";
   CallSettingsGet "UI_Use_Real_Name";
   CallCreateAttachmentForMessageURLs (rendered recent) alice
     (jumpToMessageConfig_of (settings world_after_reload))] ++
  validationCalls (rendered recent) general alice.
Proof.
  refine (proj2 (beforeSave_config_reads collaborators_during_reload in_order recent
    general alice (state_at 6000)) markdownConfig
    (rendered recent) (rendered recent) (rendered recent) (rendered recent)
    (world_at 6000) (world_at 6000) world_after_reload world_after_reload _).
  unfold stages_settle. repeat split.
Defined.

Lemma configureBadWords_flag_witness :
  badWords (this (state_of (configureBadWords_callback
               [JS.boolean false; JS.str "damn"; JS.undefined] (state_at 6000))))
  = BadWordsDisabled.
Proof.
  exact (proj1 (proj1 (proj1 (configureBadWords_flag (state_at 6000))
    (JS.boolean false) (JS.str "damn") JS.undefined) eq_refl)).
Defined.

Lemma saveSystemMessage_username_witness :
  saveSystemMessage collaborators "uj" "GENERAL" "joined" anonymous None (state_at 6000)
  = (Rejected (JsError "The username cannot be empty."), state_at 6000, []) /\
  outcome_of (saveSystemMessage collaborators "uj" "GENERAL" "joined" alice None
                (state_at 6000))
  = Fulfilled "sys-joined".
Proof.
  split.
  - apply (proj1 (saveSystemMessage_username collaborators "uj" "GENERAL" "joined"
      anonymous None (state_at 6000))).
    right. reflexivity.
  - rewrite (proj2 (saveSystemMessage_username collaborators "uj" "GENERAL" "joined"
      alice None (state_at 6000)) "alice" {| insertedId := "sys-joined" |}
      (snd (createWithTypeRoomIdMessageUserAndUnread "uj" "GENERAL" "joined"
              {| u_id := "u1"; username := Some "alice"; name := Some "Alice";
                 language := None |}
              JS.undefined None (world_at 6000)))
      eq_refl ltac:(discriminate) eq_refl).
    reflexivity.
Defined.

(** The author of the quoted message has no avatar: the quotation is
    made with the empty string. *)
Lemma getUserAvatarURL_best_effort_witness :
  getUserAvatarURL collaborators (JS.str "ghost") (world_at 6000) = JS.str EmptyString /\
  QuoteLink.quote (jumpToMessageDependencies collaborators) alice (world_at 6000) link_b
  = Some (QuoteAttachment "ghost" "second" EmptyString "https://chat.example/b").
Proof.
  destruct (getUserAvatarURL_best_effort collaborators (JS.str "ghost") (world_at 6000))
    as [Hempty Hquote].
  - right. right. exists "ghost". split; reflexivity.
  - split; [exact Hempty|].
    exact (Hquote link_b alice (earlier "b" "second" (Some "ghost")) general
             eq_refl eq_refl eq_refl eq_refl).
Defined.

Lemma markdownParser_disabled_iff_witness :
  enabled (markdownParser (created (disableMarkdownParser process_env)
                             BadWordsDisabled)) = false.
Proof.
  apply (proj1 (markdownParser_disabled_iff collaborators process_env BadWordsDisabled)).
  exists "TRUE". split; [reflexivity|]. right. reflexivity.
Defined.

(** Chain limit 1 and two quotable permalinks around a dead one: the
    first is quoted. *)
Example quoteLink_first_of_two :
  outcome_of (beforeSave collaborators in_order quoting general alice (state_at 6000))
  = Fulfilled
      (add_attachments
         [QuoteAttachment "bob" "first" "/avatar/bob" "https://chat.example/a"]
         (rendered quoting)).
Proof. reflexivity. Qed.

End DemoFacts.

(** ** More on [getMarkdownConfig] *)

Section MarkdownConfigFacts.

Context {Store : Type}.

Lemma markdownConfig_of_agree (σ σ' : gmap string JS.value) :
  (forall key, In key markdown_keys -> σ !! key = σ' !! key) ->
  markdownConfig_of σ = markdownConfig_of σ' /\
  markdownConfig_reads σ = markdownConfig_reads σ'.
Proof.
  intros H. unfold markdownConfig_of, markdownConfig_reads, setting.
  rewrite (H "Message_CustomDomain_AutoLink"), (H "HexColorPreview_Enabled"),
    (H "Katex_Enabled"), (H "Katex_Dollar_Syntax"), (H "Katex_Parenthesis_Syntax")
    by (cbn; tauto).
  split; reflexivity.
Qed.

(** X1.  [getMarkdownConfig] depends on five settings only: in two states
    whose settings agree on them it settles alike and makes the same
    reads, whatever else differs. *)
Theorem getMarkdownConfig_five_keys (s s' : State Store) :
  (forall key, In key markdown_keys ->
     settings (world s) !! key = settings (world s') !! key) ->
  outcome_of (getMarkdownConfig s) = outcome_of (getMarkdownConfig s') /\
  calls_of (getMarkdownConfig s) = calls_of (getMarkdownConfig s').
Proof.
  intros H. destruct (markdownConfig_of_agree _ _ H) as [Hcfg Hreads].
  rewrite !getMarkdownConfig_calls, Hreads.
  rewrite (getMarkdownConfig_eq s), (getMarkdownConfig_eq s').
  unfold outcome_of. cbn. rewrite Hcfg. auto.
Qed.

(** X2.  The katex entry is there exactly when [Katex_Enabled] is truthy,
    and then carries the two syntax settings as they are; the two syntax
    settings are not even read when it is falsy. *)
Theorem getMarkdownConfig_katex (s : State Store) cfg :
  outcome_of (getMarkdownConfig s) = Fulfilled cfg ->
  (JS.truthy (setting (settings (world s)) "Katex_Enabled") = true ->
   katex cfg = Some {| dollarSyntax := setting (settings (world s)) "Katex_Dollar_Syntax";
                       parenthesisSyntax :=
                         setting (settings (world s)) "Katex_Parenthesis_Syntax" |}) /\
  (JS.truthy (setting (settings (world s)) "Katex_Enabled") = false ->
   katex cfg = None /\
   ~ In (CallSettingsGet "Katex_Dollar_Syntax") (calls_of (getMarkdownConfig s)) /\
   ~ In (CallSettingsGet "Katex_Parenthesis_Syntax") (calls_of (getMarkdownConfig s))).
Proof.
  rewrite getMarkdownConfig_calls.
  rewrite (getMarkdownConfig_eq s). unfold outcome_of. cbn [fst].
  unfold markdownConfig_of, markdownConfig_reads, setting.
  destruct (JS.truthy (default JS.undefined
              (settings (world s) !! "Message_CustomDomain_AutoLink"))) eqn:Ha;
    [destruct (default JS.undefined
              (settings (world s) !! "Message_CustomDomain_AutoLink")) eqn:Hv|];
    try discriminate;
    intros [= <-]; cbn [katex];
    (split; intros Hk; rewrite Hk; [reflexivity|]);
    (split; [reflexivity|]); cbn; intuition discriminate.
Qed.

Lemma length_split_go sep cur s :
  length (JS.split_go sep cur s) = S (count_char sep s).
Proof.
  revert cur. induction s as [|c r IH]; intros cur; [reflexivity|].
  cbn. destruct (Ascii.eqb c sep); cbn; rewrite IH; reflexivity.
Qed.

(** X3.  Without a custom-domain setting (unset or empty) no domain is
    configured.  With one, the list is the comma-separated pieces, one more
    than there are commas: empty pieces are kept, not dropped. *)
Theorem getMarkdownConfig_customDomains (s : State Store) cfg :
  outcome_of (getMarkdownConfig s) = Fulfilled cfg ->
  (JS.truthy (setting (settings (world s)) "Message_CustomDomain_AutoLink") = false ->
   customDomains cfg = []) /\
  (forall d,
     setting (settings (world s)) "Message_CustomDomain_AutoLink" = JS.str d ->
     d <> EmptyString ->
     length (customDomains cfg) = S (count_char "," d)).
Proof.
  rewrite (getMarkdownConfig_eq s). unfold outcome_of. cbn [fst].
  unfold markdownConfig_of, setting.
  destruct (default JS.undefined
              (settings (world s) !! "Message_CustomDomain_AutoLink")) as [|b|n|d'] eqn:Hv;
    cbn [JS.truthy].
  - intros [= <-]. split; [reflexivity|]. discriminate.
  - destruct b; [discriminate|]. intros [= <-]. split; [reflexivity|]. discriminate.
  - destruct (negb (Z.eqb n 0)); [discriminate|].
    intros [= <-]. split; [reflexivity|]. discriminate.
  - destruct (String.eqb_spec d' EmptyString) as [->|Hne]; cbn [negb].
    + intros [= <-]. split; [reflexivity|]. intros d [= <-] Hd. contradiction.
    + intros [= <-]. split; [discriminate|]. intros d [= <-] _.
      cbn [customDomains]. rewrite length_map. apply length_split_go.
Qed.

End MarkdownConfigFacts.

(** ** Trimming *)

Section TrimFacts.

Lemma strip_suffix w1 w2 w3 l :
  (exists pre, l = pre ++ JS.strip w1 w2 w3 l) /\
  (exists pre, tail l = pre ++ JS.strip w1 w2 w3 (tail l)) /\
  (exists pre, tail (tail l) = pre ++ JS.strip w1 w2 w3 (tail (tail l))).
Proof.
  induction l as [|a r (IH0 & IH1 & IH2)].
  - repeat split; exists []; reflexivity.
  - split; [|split; [exact IH0|exact IH1]].
    cbn [JS.strip]. destruct (w1 a).
    { destruct IH0 as [pre Hpre]. exists (a :: pre). cbn. congruence. }
    destruct r as [|b r2]; [exists []; reflexivity|].
    destruct (w2 a b).
    { destruct IH1 as [pre Hpre]. cbn in Hpre.
      exists (a :: b :: pre). cbn. congruence. }
    destruct r2 as [|c r3]; [exists []; reflexivity|].
    destruct (w3 a b c); [|exists []; reflexivity].
    destruct IH2 as [pre Hpre]. cbn in Hpre.
    exists (a :: b :: c :: pre). cbn. congruence.
Qed.

Lemma strip_fixed w1 w2 w3 l :
  (forall a r, l = a :: r -> w1 a = false) ->
  (forall a b r, l = a :: b :: r -> w2 a b = false) ->
  (forall a b c r, l = a :: b :: c :: r -> w3 a b c = false) ->
  JS.strip w1 w2 w3 l = l.
Proof.
  intros H1 H2 H3. destruct l as [|a [|b [|c r]]]; cbn.
  - reflexivity.
  - rewrite (H1 a [] eq_refl). reflexivity.
  - rewrite (H1 a [b] eq_refl), (H2 a b [] eq_refl). reflexivity.
  - rewrite (H1 a (b :: c :: r) eq_refl), (H2 a b (c :: r) eq_refl),
      (H3 a b c r eq_refl). reflexivity.
Qed.

Lemma strip_front w1 w2 w3 l :
  ((forall a r, JS.strip w1 w2 w3 l = a :: r -> w1 a = false) /\
   (forall a b r, JS.strip w1 w2 w3 l = a :: b :: r -> w2 a b = false) /\
   (forall a b c r, JS.strip w1 w2 w3 l = a :: b :: c :: r -> w3 a b c = false)) /\
  ((forall a r, JS.strip w1 w2 w3 (tail l) = a :: r -> w1 a = false) /\
   (forall a b r, JS.strip w1 w2 w3 (tail l) = a :: b :: r -> w2 a b = false) /\
   (forall a b c r,
      JS.strip w1 w2 w3 (tail l) = a :: b :: c :: r -> w3 a b c = false)) /\
  ((forall a r, JS.strip w1 w2 w3 (tail (tail l)) = a :: r -> w1 a = false) /\
   (forall a b r, JS.strip w1 w2 w3 (tail (tail l)) = a :: b :: r -> w2 a b = false) /\
   (forall a b c r,
      JS.strip w1 w2 w3 (tail (tail l)) = a :: b :: c :: r -> w3 a b c = false)).
Proof.
  induction l as [|a r (IH0 & IH1 & IH2)].
  - repeat split; cbn; discriminate.
  - split; [|split; [exact IH0|exact IH1]].
    cbn [JS.strip]. destruct (w1 a) eqn:E1; [exact IH0|].
    destruct r as [|b r2].
    { repeat split; intros; try discriminate; congruence. }
    destruct (w2 a b) eqn:E2; [exact IH1|].
    destruct r2 as [|c r3].
    { repeat split; intros; try discriminate; congruence. }
    destruct (w3 a b c) eqn:E3; [exact IH2|].
    repeat split; intros; congruence.
Qed.

Lemma strip_idem w1 w2 w3 l :
  JS.strip w1 w2 w3 (JS.strip w1 w2 w3 l) = JS.strip w1 w2 w3 l.
Proof.
  destruct (strip_front w1 w2 w3 l) as ((H1 & H2 & H3) & _).
  apply strip_fixed; assumption.
Qed.

(** What no character matches at the front of a list, none matches at the
    front of a prefix of it. *)
Lemma strip_fixed_prefix w1 w2 w3 p q :
  (forall a r, p ++ q = a :: r -> w1 a = false) ->
  (forall a b r, p ++ q = a :: b :: r -> w2 a b = false) ->
  (forall a b c r, p ++ q = a :: b :: c :: r -> w3 a b c = false) ->
  JS.strip w1 w2 w3 p = p.
Proof.
  intros H1 H2 H3. apply strip_fixed.
  - intros a r ->. exact (H1 a (r ++ q) eq_refl).
  - intros a b r ->. exact (H2 a b (r ++ q) eq_refl).
  - intros a b c r ->. exact (H3 a b c (r ++ q) eq_refl).
Qed.

Lemma trim_chars_idem (l : list ascii) :
  JS.trimEnd (JS.trimStart (JS.trimEnd (JS.trimStart l))) =
  JS.trimEnd (JS.trimStart l).
Proof.
  unfold JS.trimEnd, JS.trimStart.
  set (w2' := fun b a => JS.is_white2 a b).
  set (w3' := fun c b a => JS.is_white3 a b c).
  set (a := JS.strip JS.is_white JS.is_white2 JS.is_white3 l).
  set (b := JS.strip JS.is_white w2' w3' (rev a)).
  assert (Hfix : JS.strip JS.is_white JS.is_white2 JS.is_white3 (rev b) = rev b).
  { destruct (strip_suffix JS.is_white w2' w3' (rev a)) as ([pre Hpre] & _).
    fold b in Hpre.
    assert (Ha : a = rev b ++ rev pre).
    { rewrite <- (rev_involutive a), Hpre, rev_app_distr. reflexivity. }
    destruct (strip_front JS.is_white JS.is_white2 JS.is_white3 l)
      as ((H1 & H2 & H3) & _).
    fold a in H1, H2, H3. rewrite Ha in H1, H2, H3.
    apply (strip_fixed_prefix _ _ _ (rev b) (rev pre)); assumption. }
  rewrite Hfix, rev_involutive. unfold b. rewrite strip_idem. reflexivity.
Qed.

Lemma trim_idem s : JS.trim (JS.trim s) = JS.trim s.
Proof.
  unfold JS.trim. rewrite list_ascii_of_string_of_list_ascii.
  rewrite trim_chars_idem. reflexivity.
Qed.

(** X4.  Every custom domain handed to the parser is trimmed: trimming it
    again changes nothing. *)
Theorem getMarkdownConfig_domains_trimmed {Store : Type} (s : State Store) cfg d :
  outcome_of (getMarkdownConfig s) = Fulfilled cfg ->
  In d (customDomains cfg) ->
  JS.trim d = d.
Proof.
  rewrite (getMarkdownConfig_eq s). unfold outcome_of. cbn [fst].
  unfold markdownConfig_of, setting.
  destruct (JS.truthy _).
  - destruct (default JS.undefined _) as [| | |d']; try discriminate.
    intros [= <-]. cbn [customDomains]. intros Hin.
    apply in_map_iff in Hin. destruct Hin as (x & <- & _). apply trim_idem.
  - intros [= <-]. intros [].
Qed.

End TrimFacts.

(** ** More on [beforeSave] *)

Section RunFacts.

Context {Store : Type} (C : Collaborators Store).

Lemma In_existsb (key : string) (keys : list string) :
  existsb (String.eqb key) keys = true -> In key keys.
Proof.
  intros H. apply existsb_exists in H. destruct H as (k & Hk & Heq).
  apply String.eqb_eq in Heq. subst. exact Hk.
Qed.

Lemma markdownConfig_reads_keys svc (σ : gmap string JS.value) :
  Forall (run_call svc) (markdownConfig_reads σ).
Proof.
  unfold markdownConfig_reads.
  destruct (JS.truthy (default JS.undefined (σ !! "Message_CustomDomain_AutoLink")));
    destruct (default JS.undefined (σ !! "Message_CustomDomain_AutoLink"));
    destruct (JS.truthy (default JS.undefined (σ !! "Katex_Enabled")));
    cbn [andb negb app];
    repeat (apply List.Forall_cons; [apply In_existsb; reflexivity|]);
    apply List.Forall_nil.
Qed.

Lemma transformStages_run_calls m user (s : State Store) :
  Forall (run_call (this s)) (calls_of (transformStages C m user s)).
Proof.
  pose proof (markdownConfig_reads_keys (this s) (settings (world s))) as Hget.
  rewrite <- getMarkdownConfig_calls in Hget.
  unfold transformStages, bind, get_this, await, settings_get, ret.
  rewrite getMarkdownConfig_eq.
  set (tcfg := calls_of (getMarkdownConfig s)) in *.
  destruct (markdownConfig_of (settings (world s))) as [cfg|]; cbn; [|exact Hget].
  destruct (parseMarkdown C (markdownParser (this s)) m cfg (world s))
    as [[m1|e1] w1]; cbn;
    [|apply Forall_app; split; [exact Hget|repeat constructor; reflexivity]].
  destruct (filterBadWords C (badWords (this s)) m1 w1) as [[m2|e2] w2]; cbn;
    [|apply Forall_app; split; [exact Hget|repeat constructor]].
  destruct (convertSpotifyLinks C m2 w2) as [[m3|e3] w3]; cbn;
    [|apply Forall_app; split; [exact Hget|repeat constructor]].
  match goal with
  | |- context [createAttachmentForMessageURLs C ?a ?b ?c ?d] =>
      destruct (createAttachmentForMessageURLs C a b c d) as [[m4|e4] w4]
  end; cbn; (apply Forall_app; split; [exact Hget|]);
    repeat (apply List.Forall_cons;
            [first [exact I | reflexivity | apply In_existsb; reflexivity]|]);
    apply List.Forall_nil.
Qed.

Lemma transformStages_this m user (s : State Store) :
  this (state_of (transformStages C m user s)) = this s.
Proof.
  unfold transformStages, bind, get_this, await, settings_get, ret.
  rewrite getMarkdownConfig_eq.
  destruct (markdownConfig_of (settings (world s))) as [cfg|]; cbn; [|reflexivity].
  destruct (parseMarkdown C (markdownParser (this s)) m cfg (world s))
    as [[m1|e1] w1]; cbn; [|reflexivity].
  destruct (filterBadWords C (badWords (this s)) m1 w1) as [[m2|e2] w2]; cbn;
    [|reflexivity].
  destruct (convertSpotifyLinks C m2 w2) as [[m3|e3] w3]; cbn; [|reflexivity].
  match goal with
  | |- context [createAttachmentForMessageURLs C ?a ?b ?c ?d] =>
      destruct (createAttachmentForMessageURLs C a b c d) as [[m4|e4] w4]
  end; reflexivity.
Qed.

Lemma beforeSave_run_calls settled m room user (s : State Store) :
  Forall (run_call (this s)) (calls_of (beforeSave C settled m room user s)).
Proof.
  rewrite beforeSave_split.
  pose proof (transformStages_run_calls m user s) as Ht.
  unfold bind.
  destruct (transformStages C m user s) as [[[m4|e] s4] t4]; [|exact Ht].
  rewrite validateAndReturn_eq.
  destruct (fresh_and_unedited C (clock (world s4)) m4); cbn in *.
  - apply Forall_app. split; [exact Ht|]. repeat constructor.
  - rewrite app_nil_r. exact Ht.
Qed.

(** X5.  A run of [beforeSave] never inserts a message and never announces
    one, however it ends. *)
Theorem beforeSave_never_writes settled m room user (s : State Store) :
  List.filter is_write (calls_of (beforeSave C settled m room user s)) = [].
Proof.
  pose proof (beforeSave_run_calls settled m room user s) as H.
  induction H as [|c t Hc _ IH]; [reflexivity|].
  cbn. destruct c; cbn in *; try exact IH; contradiction.
Qed.

(** X6.  The only settings a run of [beforeSave] reads are the five of the
    markdown configuration and the three of the QuoteLink configuration;
    the bad-words settings are not among them. *)
Theorem beforeSave_reads_only settled m room user (s : State Store) key :
  In (CallSettingsGet key) (calls_of (beforeSave C settled m room user s)) ->
  In key beforeSave_keys /\ ~ In key watched.
Proof.
  intros Hin.
  pose proof (beforeSave_run_calls settled m room user s) as H.
  rewrite List.Forall_forall in H. specialize (H _ Hin). cbn in H.
  split; [cbn; exact H|].
  cbn. intros Hw.
  repeat match goal with
         | H : _ \/ _ |- _ => destruct H as [H|H]
         end; try contradiction; subst; intuition discriminate.
Qed.

Lemma filter_stage_call_app_settings (t u : list Call) :
  forallb is_settings_get t = true ->
  List.filter is_stage_call (t ++ u) = List.filter is_stage_call u.
Proof.
  intros H. rewrite List.filter_app, (filter_stage_settings _ H). reflexivity.
Qed.

(** X8.  A transform stage that rejects ends the run: [beforeSave] rejects
    with the error of that stage, in the world that stage left, and neither
    a later stage nor a check of step 6 is called. *)
Theorem beforeSave_stage_rejection settled m room user (s : State Store) cfg e :
  markdownConfig_of (settings (world s)) = Some cfg ->
  (forall w1,
     parseMarkdown C (markdownParser (this s)) m cfg (world s) = (Rejected e, w1) ->
     outcome_of (beforeSave C settled m room user s) = Rejected e /\
     world (state_of (beforeSave C settled m room user s)) = w1 /\
     List.filter is_stage_call (calls_of (beforeSave C settled m room user s)) =
       [CallParseMarkdown (markdownParser (this s)) m cfg]) /\
  (forall m1 w1 w2,
     parseMarkdown C (markdownParser (this s)) m cfg (world s) = (Fulfilled m1, w1) ->
     filterBadWords C (badWords (this s)) m1 w1 = (Rejected e, w2) ->
     outcome_of (beforeSave C settled m room user s) = Rejected e /\
     world (state_of (beforeSave C settled m room user s)) = w2 /\
     List.filter is_stage_call (calls_of (beforeSave C settled m room user s)) =
       [CallParseMarkdown (markdownParser (this s)) m cfg;
        CallFilterBadWords (badWords (this s)) m1]) /\
  (forall m1 w1 m2 w2 w3,
     parseMarkdown C (markdownParser (this s)) m cfg (world s) = (Fulfilled m1, w1) ->
     filterBadWords C (badWords (this s)) m1 w1 = (Fulfilled m2, w2) ->
     convertSpotifyLinks C m2 w2 = (Rejected e, w3) ->
     outcome_of (beforeSave C settled m room user s) = Rejected e /\
     world (state_of (beforeSave C settled m room user s)) = w3 /\
     List.filter is_stage_call (calls_of (beforeSave C settled m room user s)) =
       [CallParseMarkdown (markdownParser (this s)) m cfg;
        CallFilterBadWords (badWords (this s)) m1;
        CallConvertSpotifyLinks m2]) /\
  (forall m1 w1 m2 w2 m3 w3 w4,
     parseMarkdown C (markdownParser (this s)) m cfg (world s) = (Fulfilled m1, w1) ->
     filterBadWords C (badWords (this s)) m1 w1 = (Fulfilled m2, w2) ->
     convertSpotifyLinks C m2 w2 = (Fulfilled m3, w3) ->
     createAttachmentForMessageURLs C m3 user (jumpToMessageConfig_of (settings w3)) w3
       = (Rejected e, w4) ->
     outcome_of (beforeSave C settled m room user s) = Rejected e /\
     world (state_of (beforeSave C settled m room user s)) = w4 /\
     List.filter is_stage_call (calls_of (beforeSave C settled m room user s)) =
       transformCalls s m user cfg m1 m2 m3 w3).
Proof.
  intros Hcfg.
  destruct (getMarkdownConfig_run s) as (_ & Hget & _).
  rewrite beforeSave_split.
  unfold bind at 1 2 3 4 5 6 7 8 9 10 11 12.
  unfold transformStages, bind, get_this, await, settings_get, ret.
  rewrite getMarkdownConfig_eq, Hcfg.
  set (tcfg := calls_of (getMarkdownConfig s)) in *.
  cbn.
  split; [|split; [|split]].
  - intros w1 H1. rewrite H1. cbn.
    rewrite (filter_stage_call_app_settings _ _ Hget). auto.
  - intros m1 w1 w2 H1 H2. rewrite H1. cbn. rewrite H2. cbn.
    rewrite (filter_stage_call_app_settings _ _ Hget). auto.
  - intros m1 w1 m2 w2 w3 H1 H2 H3. rewrite H1. cbn. rewrite H2. cbn.
    rewrite H3. cbn.
    rewrite (filter_stage_call_app_settings _ _ Hget). auto.
  - intros m1 w1 m2 w2 m3 w3 w4 H1 H2 H3 H4. rewrite H1. cbn. rewrite H2. cbn.
    rewrite H3. cbn.
    unfold jumpToMessageConfig_of, setting in H4. rewrite H4. cbn.
    rewrite (filter_stage_call_app_settings _ _ Hget). auto.
Qed.

(** X9.  The order in which the promises of step 6 settle decides only
    which error a rejected run reports: whether the run fulfils, and with
    which message, is the same for any two orders. *)
Theorem beforeSave_settle_order settled settled' m room user (s : State Store) :
  fulfilled_value (outcome_of (beforeSave C settled m room user s)) =
  fulfilled_value (outcome_of (beforeSave C settled' m room user s)).
Proof.
  rewrite !beforeSave_split. unfold bind.
  destruct (transformStages C m user s) as [[[m4|e] s4] t4]; [|reflexivity].
  rewrite !validateAndReturn_eq.
  destruct (fresh_and_unedited C (clock (world s4)) m4); [|reflexivity].
  pose proof (first_rejection_settled (checks C m4 room user (world s4)) settled) as H1.
  pose proof (first_rejection_settled (checks C m4 room user (world s4)) settled') as H2.
  destruct (first_rejection
              (omap (fun i => checks C m4 room user (world s4) !! i) settled ++ _))
    as [e1|];
    destruct (first_rejection
              (omap (fun i => checks C m4 room user (world s4) !! i) settled' ++ _))
    as [e2|]; cbn; auto.
  - destruct (H2 e1 H1).
  - destruct (H1 e2 H2).
Qed.

(** X10.  When the promise that settles first was rejected, its error is
    the one [beforeSave] reports, whatever the others did. *)
Theorem beforeSave_first_settled_veto i settled m room user s cfg m1 m2 m3 m4
    w1 w2 w3 w4 e :
  stages_settle C s m user cfg m1 m2 m3 m4 w1 w2 w3 w4 ->
  fresh_and_unedited C (clock w4) m4 = true ->
  checks C m4 room user w4 !! i = Some (Rejected e) ->
  outcome_of (beforeSave C (i :: settled) m room user s) = Rejected e.
Proof.
  intros H Hfresh Hi.
  rewrite (beforeSave_outcome C _ _ _ _ _ _ _ _ _ _ _ _ _ _ H), Hfresh.
  cbn [omap list_omap]. rewrite Hi. reflexivity.
Qed.

(** X11.  A veto by the constraint check keeps no mention guard from
    being called: when [isWithinLimits] rejects, all three checks of step
    6 have been called, and the run is rejected. *)
Theorem beforeSave_veto_cancels_nothing settled m room user s cfg m1 m2 m3 m4
    w1 w2 w3 w4 e w5 :
  stages_settle C s m user cfg m1 m2 m3 m4 w1 w2 w3 w4 ->
  fresh_and_unedited C (clock w4) m4 = true ->
  isWithinLimits C m4 room w4 = (Rejected e, w5) ->
  List.filter is_validation (calls_of (beforeSave C settled m room user s)) =
    validationCalls m4 room user /\
  exists e', outcome_of (beforeSave C settled m room user s) = Rejected e'.
Proof.
  intros H Hfresh H1.
  rewrite (beforeSave_validation_calls C _ _ _ _ _ _ _ _ _ _ _ _ _ _ H),
    (beforeSave_outcome C _ _ _ _ _ _ _ _ _ _ _ _ _ _ H), Hfresh.
  split; [reflexivity|].
  pose proof (first_rejection_settled (checks C m4 room user w4) settled) as Hs.
  destruct (first_rejection _) as [e'|]; [eauto|].
  exfalso. apply (Hs e). unfold checks. rewrite H1.
  destruct (preventMention C m4 user "all" "mention-all" w5) as [p2 w6].
  destruct (preventMention C m4 user "here" "mention-here" w6) as [p3 w7].
  left. reflexivity.
Qed.

(** X18.  A run fulfils with [m'] only when its own four stages, each
    called on what the one before returned, starting from the input message
    and the starting world, all fulfilled and the fourth returned [m']: the
    checks of step 6 can reject a message but never alter it. *)
Theorem beforeSave_returns_stage4 settled m room user (s : State Store) m' :
  outcome_of (beforeSave C settled m room user s) = Fulfilled m' ->
  exists cfg m1 m2 m3 w1 w2 w3 w4,
    stages_settle C s m user cfg m1 m2 m3 m' w1 w2 w3 w4.
Proof.
  rewrite beforeSave_split. unfold bind.
  destruct (transformStages C m user s) as [[[m4|e] s4] t4] eqn:Ht; [|discriminate].
  apply transformStages_inv in Ht.
  destruct Ht as (cfg & m1 & m2 & m3 & w1 & w2 & w3 & w4 & Hs & _ & _).
  rewrite validateAndReturn_eq.
  destruct (fresh_and_unedited C (clock (world s4)) m4); unfold outcome_of; cbn.
  - destruct (first_rejection _); [discriminate|].
    intros [= <-]. exists cfg, m1, m2, m3, w1, w2, w3, w4. exact Hs.
  - intros [= <-]. exists cfg, m1, m2, m3, w1, w2, w3, w4. exact Hs.
Qed.

(** X12.  For an unedited message with a creation timestamp: once it is old
    at a clock not before its timestamp, it is old at every later clock; and
    dated more than 60000 ms ahead of the clock it is old as well. *)
Theorem isEditedOrOld_over_time message t (s s' : State Store) :
  isEditedMessage C message = false ->
  ts message = Some t ->
  (t <= clock (world s) <= clock (world s') ->
   outcome_of (isEditedOrOld C message s) = Fulfilled true ->
   outcome_of (isEditedOrOld C message s') = Fulfilled true) /\
  (clock (world s) < t - 60000 ->
   outcome_of (isEditedOrOld C message s) = Fulfilled true).
Proof.
  intros He Ht. rewrite !isEditedOrOld_eq. unfold outcome_of, fresh_and_unedited.
  cbn [fst]. rewrite He, Ht. cbn [negb andb]. split.
  - intros Hle [= Hold]. f_equal. apply negb_true_iff in Hold.
    apply negb_true_iff. apply Z.leb_gt in Hold. apply Z.leb_gt. lia.
  - intros Hahead. f_equal. apply negb_true_iff. apply Z.leb_gt. lia.
Qed.

End RunFacts.

(** ** More on [saveSystemMessage] and the avatar resolver *)

Section SystemMessageFacts.

Context {Store : Type} (C : Collaborators Store).

(** X13.  [saveSystemMessage] announces a message exactly when it fulfils,
    once, and with the identifier it returns; a rejected call announces
    nothing. *)
Theorem saveSystemMessage_broadcast type rid message owner extraData (s : State Store) :
  List.filter is_broadcast
    (calls_of (saveSystemMessage C type rid message owner extraData s)) =
  match outcome_of (saveSystemMessage C type rid message owner extraData s) with
  | Fulfilled id => [CallBroadcastMessageSentEvent id]
  | Rejected _ => []
  end.
Proof.
  unfold saveSystemMessage.
  destruct (negb (JS.truthy (from_option JS.str JS.undefined (username owner))));
    [reflexivity|].
  unfold bind, settings_get, await, void, ret. cbn.
  match goal with
  | |- context [createWithTypeRoomIdMessageUserAndUnread C ?a ?b ?c ?d ?e ?f ?g] =>
      destruct (createWithTypeRoomIdMessageUserAndUnread C a b c d e f g)
        as [[result|e'] w']
  end; reflexivity.
Qed.

(** X14.  When the insertion rejects, [saveSystemMessage] rejects with the
    same error in the world the insertion left, after the read of the
    read-receipt setting and the insertion call only. *)
Theorem saveSystemMessage_insert_rejected type rid message owner extraData
    (s : State Store) n e w' :
  username owner = Some n -> n <> EmptyString ->
  createWithTypeRoomIdMessageUserAndUnread C type rid message
    {| u_id := u_id owner; username := Some n; name := name owner; language := None |}
    (setting (settings (world s)) "Message_Read_Receipt_Enabled")
    extraData (world s) = (Rejected e, w') ->
  saveSystemMessage C type rid message owner extraData s =
  (Rejected e, {| this := this s; world := w' |},
   [CallSettingsGet "Message_Read_Receipt_Enabled";
    CallCreateWithTypeRoomIdMessageUserAndUnread type rid message
      {| u_id := u_id owner; username := Some n; name := name owner; language := None |}
      (setting (settings (world s)) "Message_Read_Receipt_Enabled") extraData]).
Proof.
  intros Hn Hne Hins. unfold saveSystemMessage. rewrite Hn. cbn.
  destruct (String.eqb_spec n EmptyString); [contradiction|]. cbn.
  unfold bind, settings_get, await, void, ret. cbn.
  unfold setting in Hins. rewrite Hins. reflexivity.
Qed.

(** X15.  Of the owner only [_id], [username] and [name] count: two owners
    that agree on them give the same run. *)
Theorem saveSystemMessage_owner_fields type rid message owner owner' extraData
    (s : State Store) :
  u_id owner = u_id owner' -> username owner = username owner' ->
  name owner = name owner' ->
  saveSystemMessage C type rid message owner extraData s =
  saveSystemMessage C type rid message owner' extraData s.
Proof.
  intros Hid Hu Hn. unfold saveSystemMessage. rewrite Hid, Hu, Hn. reflexivity.
Qed.

(** X16.  A system message bypasses the pipeline: [saveSystemMessage] calls
    no stage and no check, reads no setting but the read-receipt one, and
    leaves the service object alone. *)
Theorem saveSystemMessage_bypasses_pipeline type rid message owner extraData
    (s : State Store) :
  List.filter is_stage_call
    (calls_of (saveSystemMessage C type rid message owner extraData s)) = [] /\
  (forall key,
     In (CallSettingsGet key)
        (calls_of (saveSystemMessage C type rid message owner extraData s)) ->
     key = "Message_Read_Receipt_Enabled") /\
  this (state_of (saveSystemMessage C type rid message owner extraData s)) = this s.
Proof.
  unfold saveSystemMessage.
  destruct (negb (JS.truthy (from_option JS.str JS.undefined (username owner)))).
  - repeat split. intros key [].
  - unfold bind, settings_get, await, void, ret. cbn.
    match goal with
    | |- context [createWithTypeRoomIdMessageUserAndUnread C ?a ?b ?c ?d ?e ?f ?g] =>
        destruct (createWithTypeRoomIdMessageUserAndUnread C a b c d e f g)
          as [[result|e'] w']
    end; cbn; repeat split; intros key Hin; cbn in Hin;
      intuition (try discriminate); congruence.
Qed.

(** X17.  The avatar resolver returns either the empty string or a truthy
    value, never another falsy one; for a non-empty username whose lookup
    gives a truthy URL, it returns that URL as it is. *)
Theorem getUserAvatarURL_string_or_url (user : JS.value) (w : World Store) :
  (JS.truthy (getUserAvatarURL C user w) = true \/
   getUserAvatarURL C user w = JS.str EmptyString) /\
  (forall n,
     user = JS.str n -> n <> EmptyString ->
     JS.truthy (utils_getUserAvatarURL C n w) = true ->
     getUserAvatarURL C user w = utils_getUserAvatarURL C n w).
Proof.
  unfold getUserAvatarURL. split.
  - match goal with
    | |- context [if JS.truthy ?c then ?c else _] => destruct (JS.truthy c) eqn:Hc
    end; [left; exact Hc|right; reflexivity].
  - intros n -> Hn Hurl. cbn [JS.truthy].
    destruct (String.eqb_spec n EmptyString); [contradiction|]. cbn [negb].
    rewrite Hurl. reflexivity.
Qed.

End SystemMessageFacts.

(** ** The further facts on the small deployment *)

Section DemoExtraFacts.

Import Demo DemoRuns DemoExtra DemoExtraRuns.

Lemma getMarkdownConfig_five_keys_witness :
  outcome_of (getMarkdownConfig (state_at 6000)) =
    outcome_of (getMarkdownConfig reloaded_state) /\
  calls_of (getMarkdownConfig (state_at 6000)) =
    calls_of (getMarkdownConfig reloaded_state).
Proof.
  apply (getMarkdownConfig_five_keys (state_at 6000) reloaded_state).
  intros key Hin. cbn in Hin.
  repeat (destruct Hin as [<-|Hin]; [reflexivity|]). contradiction.
Defined.

Lemma getMarkdownConfig_katex_witness :
  katex markdownConfig = None.
Proof.
  exact (proj1 (proj2 (getMarkdownConfig_katex (state_at 6000) markdownConfig eq_refl)
                  eq_refl)).
Defined.

Lemma getMarkdownConfig_customDomains_witness :
  length (customDomains domains_config) = S (count_char "," " a.com ,,b.org").
Proof.
  apply (proj2 (getMarkdownConfig_customDomains domains_state domains_config eq_refl)
           " a.com ,,b.org").
  - reflexivity.
  - discriminate.
Defined.

Lemma getMarkdownConfig_domains_trimmed_witness :
  JS.trim "b.org" = "b.org".
Proof.
  apply (getMarkdownConfig_domains_trimmed domains_state domains_config "b.org").
  - reflexivity.
  - right. right. left. reflexivity.
Defined.

Lemma beforeSave_reads_only_witness :
  In "Site_Url" beforeSave_keys /\ ~ In "Site_Url" watched.
Proof.
  apply (beforeSave_reads_only collaborators in_order recent general alice
           (state_at 6000) "Site_Url").
  vm_compute. do 7 right. left. reflexivity.
Defined.

Lemma beforeSave_stage_rejection_witness :
  outcome_of (beforeSave collaborators_failing_filter in_order recent general alice
                (state_at 6000)) = Rejected (JsError "filter unavailable") /\
  world (state_of (beforeSave collaborators_failing_filter in_order recent general alice
                     (state_at 6000))) = world_at 6000 /\
  List.filter is_stage_call
    (calls_of (beforeSave collaborators_failing_filter in_order recent general alice
                 (state_at 6000))) =
  [CallParseMarkdown (markdownParser service) recent markdownConfig;
   CallFilterBadWords (badWords service) (rendered recent)].
Proof.
  apply (proj1 (proj2 (beforeSave_stage_rejection collaborators_failing_filter in_order
           recent general alice (state_at 6000) markdownConfig
           (JsError "filter unavailable") eq_refl))
           (rendered recent) (world_at 6000) (world_at 6000)); reflexivity.
Defined.

Lemma beforeSave_first_settled_veto_witness :
  outcome_of (beforeSave collaborators [1; 0; 2]%nat recent general alice (state_at 6000))
  = Rejected (MeteorError "error-action-not-allowed" "Notify all in this room not allowed").
Proof.
  apply (beforeSave_first_settled_veto collaborators 1%nat [0; 2]%nat recent general
           alice (state_at 6000) markdownConfig
           (rendered recent) (rendered recent) (rendered recent) (rendered recent)
           (world_at 6000) (world_at 6000) (world_at 6000) (world_at 6000)).
  - unfold stages_settle. repeat split.
  - reflexivity.
  - reflexivity.
Defined.

Lemma beforeSave_veto_cancels_nothing_witness :
  List.filter is_validation
    (calls_of (beforeSave collaborators_over_limit in_order recent general alice
                 (state_at 6000))) = validationCalls (rendered recent) general alice /\
  exists e', outcome_of (beforeSave collaborators_over_limit in_order recent general alice
                           (state_at 6000)) = Rejected e'.
Proof.
  apply (beforeSave_veto_cancels_nothing collaborators_over_limit in_order recent general
           alice (state_at 6000) markdownConfig
           (rendered recent) (rendered recent) (rendered recent) (rendered recent)
           (world_at 6000) (world_at 6000) (world_at 6000) (world_at 6000)
           (MeteorError "error-mac-limit-reached" "limit reached")
           (world_plus 6000 1)).
  - unfold stages_settle. repeat split.
  - reflexivity.
  - reflexivity.
Defined.

Lemma isEditedOrOld_over_time_witness :
  outcome_of (isEditedOrOld collaborators recent (state_at 80000)) = Fulfilled true.
Proof.
  apply (proj1 (isEditedOrOld_over_time collaborators recent 5000
                  (state_at 70000) (state_at 80000) eq_refl eq_refl)).
  - cbn. lia.
  - reflexivity.
Defined.

Lemma saveSystemMessage_insert_rejected_witness :
  saveSystemMessage collaborators_over_limit "uj" "GENERAL" "joined" alice None
    (state_at 6000) =
  (Rejected (JsError "write failed"), state_at 6000,
   [CallSettingsGet "Message_Read_Receipt_Enabled";
    CallCreateWithTypeRoomIdMessageUserAndUnread "uj" "GENERAL" "joined"
      owner_of_alice JS.undefined None]).
Proof.
  apply (saveSystemMessage_insert_rejected collaborators_over_limit "uj" "GENERAL"
           "joined" alice None (state_at 6000) "alice" (JsError "write failed")
           (world_at 6000)).
  - reflexivity.
  - discriminate.
  - reflexivity.
Defined.

Lemma saveSystemMessage_owner_fields_witness :
  saveSystemMessage collaborators "uj" "GENERAL" "joined" alice None (state_at 6000) =
  saveSystemMessage collaborators "uj" "GENERAL" "joined" alice_fr None (state_at 6000).
Proof.
  apply (saveSystemMessage_owner_fields collaborators "uj" "GENERAL" "joined"
           alice alice_fr None (state_at 6000)); reflexivity.
Defined.

Lemma saveSystemMessage_bypasses_pipeline_witness :
  "Message_Read_Receipt_Enabled" = "Message_Read_Receipt_Enabled".
Proof.
  apply (proj1 (proj2 (saveSystemMessage_bypasses_pipeline collaborators "uj" "GENERAL"
           "joined" alice None (state_at 6000)))).
  vm_compute. left. reflexivity.
Defined.

Lemma getUserAvatarURL_string_or_url_witness :
  getUserAvatarURL collaborators (JS.str "bob") (world_at 6000) = JS.str "/avatar/bob".
Proof.
  apply (proj2 (getUserAvatarURL_string_or_url collaborators (JS.str "bob")
                  (world_at 6000)) "bob").
  - reflexivity.
  - discriminate.
  - reflexivity.
Defined.

Lemma beforeSave_returns_stage4_witness :
  exists cfg m1 m2 m3 w1 w2 w3 w4,
    stages_settle collaborators (state_at 6000) quoting alice cfg m1 m2 m3
      (add_attachments
         [QuoteAttachment "bob" "first" "/avatar/bob" "https://chat.example/a"]
         (rendered quoting))
      w1 w2 w3 w4.
Proof.
  apply (beforeSave_returns_stage4 collaborators in_order quoting general alice
           (state_at 6000)).
  reflexivity.
Defined.

End DemoExtraFacts.
